(** * bmo: the frame-by-frame turn-taking loop of [main.py]

    A shallow embedding of [AudioRecording] (src/main.py): the session
    record, the constants of the module, the buffer slicing, the
    voice-activity test and the four-state step function [next_frame],
    followed by the properties of the specification that concern them.

    External collaborators (recorder, wake-word matcher, transcriber, reply
    pipeline, interruption detector, audio player) are not part of the
    embedding.  What they return is supplied per frame in a [Tick]; what is
    asked of them is appended to the session's [calls] log. *)

From Stdlib Require Import String ZArith List Bool Lia QArith Qreals Reals Lra.
From Stdlib.Strings Require Import Byte.
Import ListNotations.

Local Open Scope Z_scope.

(** ** Python values *)

(** A Python [str] as its sequence of code points. *)
Definition pystr := list N.

(** [str.isspace] on one code point (CPython's [_PyUnicode_IsWhitespace]). *)
Definition py_isspace (c : N) : bool :=
  ((9 <=? c) && (c <=? 13) || (28 <=? c) && (c <=? 32)
   || (c =? 133) || (c =? 160) || (c =? 5760)
   || (8192 <=? c) && (c <=? 8202)
   || (c =? 8232) || (c =? 8233) || (c =? 8239) || (c =? 8287)
   || (c =? 12288))%N.

Fixpoint lstrip (s : pystr) : pystr :=
  match s with
  | [] => []
  | c :: s' => if py_isspace c then lstrip s' else s
  end.

Definition rstrip (s : pystr) : pystr := rev (lstrip (rev s)).

(** [s.strip()] *)
Definition strip (s : pystr) : pystr := rstrip (lstrip s).

(** [l[i:]] for a Python sequence: a negative [i] counts from the end, and
    the start is clamped to the sequence ([l[-0:]] is [l[0:]], all of [l]). *)
Definition slice_from {A : Type} (i : Z) (l : list A) : list A :=
  let n := Z.of_nat (length l) in
  let start := if i <? 0 then Z.max (n + i) 0 else Z.min i n in
  skipn (Z.to_nat start) l.

Definition byte_of_Z (z : Z) : byte :=
  match Byte.of_N (Z.to_N z) with
  | Some b => b
  | None => x00
  end.

(** [struct.pack("h", x)]: a 16-bit sample in two bytes, low byte first.
    The recorder delivers signed 16-bit samples; a sample is kept as a [Z]
    and reduced modulo 2^16 here. *)
Definition pack_h (x : Z) : list byte :=
  let u := x mod 65536 in
  [byte_of_Z (Z.land u 255); byte_of_Z (Z.shiftr u 8)].

(** [struct.pack("h" * len(pcm), *pcm)] *)
Definition struct_pack (pcm : list Z) : list byte := flat_map pack_h pcm.

(** ** Module constants *)

(** Modelled from the spec: [porcupine.frame_length] is a constant of the
    wake-word library, not of src/; the source comment and the spec (§3)
    both give 512 samples per frame. *)
Definition frame_length : Z := 512.
Definition buffer_size_when_not_listening : Z := frame_length * 32 * 20.
Definition buffer_size_on_active_listening : Z := frame_length * 32 * 60.
Definition sample_rate : Z := 16000.
Definition silence_threshold : Z := 300.
(** [0.5 * 32] and [0.3 * 32] are Python floats; they are kept as exact
    rationals.  The float [0.3 * 32] lies strictly between 9 and 10 like
    48/5, so every comparison with an integer counter agrees. *)
Definition silence_limit : Q := (5 # 10) * 32.
Definition speaking_minimum : Q := (3 # 10) * 32.
Definition silence_time_to_standby : Z := 10 * 32.

(** One frame of [frame_length] samples packed by [struct_pack]. *)
Definition frame_bytes : Z := 2 * frame_length.

(** Comparisons of an integer counter with a float threshold. *)
Definition Z_ge_Q (n : Z) (q : Q) : bool := Qle_bool q (inject_Z n).
Definition Z_lt_Q (n : Z) (q : Q) : bool := negb (Qle_bool q (inject_Z n)).

(** ** Voice activity *)

Definition sum_squares (pcm : list Z) : Z :=
  fold_right (fun x acc => x * x + acc) 0 pcm.

(** A volume is the square root of a non-negative rational, held exactly
    by that rational. *)
Record volume : Set := Rms { mean_square : Q }.

(** Modelled from the spec: [lib.utils.calculate_volume] is not in src/.
    The spec (§4.1) describes the metric as the root-mean-square of the
    sample amplitudes of one frame: the square root of the mean of the
    squared samples. *)
Definition calculate_volume (pcm : list Z) : volume :=
  Rms (sum_squares pcm # Pos.of_nat (length pcm)).

(** [v < t] for a volume [v] and an integer threshold [t]. *)
Definition volume_ltb (v : volume) (t : Z) : bool :=
  (0 <? t) && negb (Qle_bool (inject_Z (t * t)) (mean_square v)).

(** The real number a volume stands for. *)
Definition volume_R (v : volume) : R := sqrt (Q2R (mean_square v)).

(** The root-mean-square of a frame as a real number. *)
Definition rms (pcm : list Z) : R :=
  sqrt (IZR (sum_squares pcm) / INR (length pcm)).

Definition is_silence (pcm : list Z) : bool :=
  let rms := calculate_volume pcm in
  volume_ltb rms silence_threshold.

(** ** The session *)

Module State.
(** The four string literals of [RecordingState]. *)
Inductive RecordingState : Set :=
| waiting_for_wakeup
| waiting_for_silence
| start_reply
| replying.

Definition eqb (a b : RecordingState) : bool :=
  match a, b with
  | waiting_for_wakeup, waiting_for_wakeup
  | waiting_for_silence, waiting_for_silence
  | start_reply, start_reply
  | replying, replying => true
  | _, _ => false
  end.
End State.
Abbreviation RecordingState := State.RecordingState.

(** A [Message] dictionary: [{"role": ..., "content": ...}]. *)
Record Message : Set := { role : string; content : pystr }.

Definition Conversation := list Message.

(** [(action, data)] as delivered by [chat_gpt.get(block=False)]; an action
    string that [replying_loop] does not test for is [other_action]. *)
Inductive ReplyEvent : Set :=
| assistent_message (data : Message)
| play_beep (data : string)
| reply_audio_started (data : N)
| reply_audio_ended
| other_action.

(** The [InterruptionDetection] object held by the session.  Its class is
    not in src/; the session only holds it, calls it and drops it. *)
Inductive InterruptionDetection : Set := InterruptionDetection_new.

(** Requests made of the external collaborators, in the order made. *)
Inductive Call : Set :=
| recorder_start
| recorder_stop
| transcriber_restart
| transcriber_consume (buffer : list byte)
| transcriber_transcribe_and_stop
| transcriber_stop
| chat_gpt_reply (conversation : Conversation)
| chat_gpt_restart
| chat_gpt_stop
| detector_pause_for (n : Z)
| detector_start_reply_interruption_check (data : N)
| detector_stop
| play_audio_file_non_blocking (file : string).

Record AudioRecording : Set := {
  state : RecordingState;
  conversation : Conversation;
  silence_frame_count : Z;
  speaking_frame_count : Z;
  recording_audio_buffer : list byte;
  interruption_detection : option InterruptionDetection;
  calls : list Call
}.

(** What the collaborators answer during one call of [next_frame]. *)
Record Tick : Set := {
  recorder_read : list Z;               (* recorder.read() *)
  porcupine_process : Z;                (* porcupine.process(pcm) *)
  transcribe_and_stop : pystr;          (* transcriber.transcribe_and_stop() *)
  chat_gpt_get : option ReplyEvent;     (* chat_gpt.get(block=False); None is Empty *)
  is_done : bool;                       (* interruption_detection.is_done() *)
  check_for_interruption : bool         (* ....check_for_interruption(pcm, is_silence) *)
}.

(** Field assignments. *)
Definition set_state (v : RecordingState) (self : AudioRecording) :=
  {| state := v; conversation := conversation self;
     silence_frame_count := silence_frame_count self;
     speaking_frame_count := speaking_frame_count self;
     recording_audio_buffer := recording_audio_buffer self;
     interruption_detection := interruption_detection self;
     calls := calls self |}.

Definition set_conversation (v : Conversation) (self : AudioRecording) :=
  {| state := state self; conversation := v;
     silence_frame_count := silence_frame_count self;
     speaking_frame_count := speaking_frame_count self;
     recording_audio_buffer := recording_audio_buffer self;
     interruption_detection := interruption_detection self;
     calls := calls self |}.

Definition set_silence_frame_count (v : Z) (self : AudioRecording) :=
  {| state := state self; conversation := conversation self;
     silence_frame_count := v;
     speaking_frame_count := speaking_frame_count self;
     recording_audio_buffer := recording_audio_buffer self;
     interruption_detection := interruption_detection self;
     calls := calls self |}.

Definition set_speaking_frame_count (v : Z) (self : AudioRecording) :=
  {| state := state self; conversation := conversation self;
     silence_frame_count := silence_frame_count self;
     speaking_frame_count := v;
     recording_audio_buffer := recording_audio_buffer self;
     interruption_detection := interruption_detection self;
     calls := calls self |}.

Definition set_recording_audio_buffer (v : list byte) (self : AudioRecording) :=
  {| state := state self; conversation := conversation self;
     silence_frame_count := silence_frame_count self;
     speaking_frame_count := speaking_frame_count self;
     recording_audio_buffer := v;
     interruption_detection := interruption_detection self;
     calls := calls self |}.

Definition set_interruption_detection (v : option InterruptionDetection)
  (self : AudioRecording) :=
  {| state := state self; conversation := conversation self;
     silence_frame_count := silence_frame_count self;
     speaking_frame_count := speaking_frame_count self;
     recording_audio_buffer := recording_audio_buffer self;
     interruption_detection := v;
     calls := calls self |}.

(** Record one request to a collaborator. *)
Definition call (c : Call) (self : AudioRecording) :=
  {| state := state self; conversation := conversation self;
     silence_frame_count := silence_frame_count self;
     speaking_frame_count := speaking_frame_count self;
     recording_audio_buffer := recording_audio_buffer self;
     interruption_detection := interruption_detection self;
     calls := calls self ++ [c] |}.

(** ** Methods of [AudioRecording] *)

Definition reset (st : RecordingState) (self : AudioRecording) : AudioRecording :=
  let self := call recorder_start self in
  let self := set_state st self in
  let self := set_silence_frame_count 0 self in
  match st with
  | State.waiting_for_silence =>
      let self := call transcriber_restart self in
      set_interruption_detection None self
  | State.replying =>
      set_interruption_detection (Some InterruptionDetection_new) self
  | _ =>
      let self := set_speaking_frame_count 0 self in
      let self := set_recording_audio_buffer [] self in
      set_interruption_detection None self
  end.

(** [AudioRecording(recorder)]; [initial_message] comes from [lib.chatgpt]. *)
Definition init (initial_message : Message) : AudioRecording :=
  reset State.waiting_for_silence
    {| state := State.waiting_for_silence;
       conversation := [initial_message];
       silence_frame_count := 0;
       speaking_frame_count := 0;
       recording_audio_buffer := [];
       interruption_detection := None;
       calls := [] |}.

Definition stop (self : AudioRecording) : AudioRecording :=
  let self := call recorder_stop self in
  let self := call chat_gpt_stop self in
  let self :=
    match interruption_detection self with
    | Some _ => call detector_stop self
    | None => self
    end in
  call transcriber_stop self.

Definition transcribe_buffer (self : AudioRecording) : AudioRecording :=
  let self := call (transcriber_consume (recording_audio_buffer self)) self in
  set_recording_audio_buffer
    (slice_from (- Z.max (frame_length * 32 * 3) 0) (recording_audio_buffer self))
    self.

Definition drop_early_recording_audio_frames (self : AudioRecording)
  : AudioRecording :=
  if Z.of_nat (length (recording_audio_buffer self)) >?
     (if State.eqb (state self) State.waiting_for_wakeup
      then buffer_size_when_not_listening
      else buffer_size_on_active_listening)
  then set_recording_audio_buffer
         (slice_from frame_length (recording_audio_buffer self)) self
  else self.

Definition waiting_for_wakeup (t : Tick) (self : AudioRecording)
  : AudioRecording :=
  let trigger := porcupine_process t in
  if trigger >=? 0 then
    let self := call (play_audio_file_non_blocking "beep2.mp3") self in
    set_state State.start_reply self
  else self.

Definition waiting_for_silence (pcm : list Z) (self : AudioRecording)
  : AudioRecording :=
  let silent := is_silence pcm in
  let self :=
    if silent then
      let self :=
        set_silence_frame_count (silence_frame_count self + 1) self in
      if Z_lt_Q (speaking_frame_count self) speaking_minimum
         && Z_ge_Q (silence_frame_count self) (silence_limit * 2)
      then set_speaking_frame_count 0 self
      else self
    else
      let self :=
        if speaking_frame_count self =? 0
        then set_recording_audio_buffer
               (slice_from (- frame_length * 4) (recording_audio_buffer self))
               self
        else self in
      let self :=
        set_speaking_frame_count (speaking_frame_count self + 1) self in
      set_silence_frame_count 0 self in
  let transcription_flush_step := 1 * 32 in
  let self :=
    if (speaking_frame_count self >? 0)
       && ((silence_frame_count self + speaking_frame_count self)
             mod transcription_flush_step =? 0)
    then transcribe_buffer self
    else self in
  let self :=
    if Z_ge_Q (silence_frame_count self) silence_limit
       && Z_ge_Q (speaking_frame_count self) speaking_minimum
    then
      let self := transcribe_buffer self in
      set_state State.start_reply self
    else self in
  if silence_frame_count self >=? silence_time_to_standby then
    let self := call (play_audio_file_non_blocking "byebye.mp3") self in
    let self := set_silence_frame_count 0 self in
    let self := set_speaking_frame_count 0 self in
    set_state State.waiting_for_wakeup self
  else self.

Definition replying_loop (t : Tick) (self : AudioRecording) : AudioRecording :=
  match interruption_detection self with
  | None => self
  | Some _ =>
      let self :=
        match chat_gpt_get t with
        | Some (assistent_message data) =>
            set_conversation (conversation self ++ [data]) self
        | Some (play_beep data) =>
            let self := call (detector_pause_for 32) self in
            call (play_audio_file_non_blocking data) self
        | Some (reply_audio_started data) =>
            let self := set_silence_frame_count 0 self in
            let self := set_speaking_frame_count 0 self in
            call (detector_start_reply_interruption_check data) self
        | Some reply_audio_ended => call detector_stop self
        | Some other_action => self
        | None => self
        end in
      if is_done t then
        let self :=
          set_recording_audio_buffer
            (slice_from (- frame_length * 2) (recording_audio_buffer self))
            self in
        let self := set_speaking_frame_count 0 self in
        reset State.waiting_for_silence self
      else
        let interrupted := check_for_interruption t in
        if interrupted then
          let self := call chat_gpt_restart self in
          let self :=
            set_recording_audio_buffer
              (slice_from (- frame_length * 32) (recording_audio_buffer self))
              self in
          reset State.waiting_for_silence self
        else self
  end.

(** The [start_reply] branch of [next_frame]. *)
Definition start_reply_step (t : Tick) (self : AudioRecording) : AudioRecording :=
  let self := call recorder_stop self in
  let self := call transcriber_transcribe_and_stop self in
  let transcription := transcribe_and_stop t in
  if (length (strip transcription) =? 0)%nat then
    reset State.waiting_for_silence self
  else
    let user_message := {| role := "user"; content := transcription |} in
    let self := set_conversation (conversation self ++ [user_message]) self in
    let self :=
      set_recording_audio_buffer
        (slice_from (- frame_length) (recording_audio_buffer self)) self in
    let self := call (chat_gpt_reply (conversation self)) self in
    let self := reset State.replying self in
    call recorder_start self.

(** The buffer part of [next_frame]: append the packed frame, then cap. *)
Definition append_frame (pcm : list Z) (self : AudioRecording) : AudioRecording :=
  let self :=
    set_recording_audio_buffer
      (recording_audio_buffer self ++ struct_pack pcm) self in
  drop_early_recording_audio_frames self.

Definition next_frame (t : Tick) (self : AudioRecording) : AudioRecording :=
  let pcm := recorder_read t in
  let self := append_frame pcm self in
  match state self with
  | State.waiting_for_wakeup => waiting_for_wakeup t self
  | State.waiting_for_silence => waiting_for_silence pcm self
  | State.start_reply => start_reply_step t self
  | State.replying => replying_loop t self
  end.

(** The main loop, over the frames delivered so far. *)
Definition run (ts : list Tick) (self : AudioRecording) : AudioRecording :=
  fold_left (fun s t => next_frame t s) ts self.

(** The state after each frame of a run, oldest first. *)
Fixpoint states_of_run (ts : list Tick) (self : AudioRecording)
  : list RecordingState :=
  match ts with
  | [] => []
  | t :: ts' =>
      let self' := next_frame t self in
      state self' :: states_of_run ts' self'
  end.

(** ** Parts of the methods, named for the proofs *)

(** The four consecutive parts of [waiting_for_silence]. *)
Definition count_frame (pcm : list Z) (self : AudioRecording) : AudioRecording :=
  if is_silence pcm then
    let self :=
      set_silence_frame_count (silence_frame_count self + 1) self in
    if Z_lt_Q (speaking_frame_count self) speaking_minimum
       && Z_ge_Q (silence_frame_count self) (silence_limit * 2)
    then set_speaking_frame_count 0 self
    else self
  else
    let self :=
      if speaking_frame_count self =? 0
      then set_recording_audio_buffer
             (slice_from (- frame_length * 4) (recording_audio_buffer self))
             self
      else self in
    let self :=
      set_speaking_frame_count (speaking_frame_count self + 1) self in
    set_silence_frame_count 0 self.

Definition flush_if_due (self : AudioRecording) : AudioRecording :=
  if (speaking_frame_count self >? 0)
     && ((silence_frame_count self + speaking_frame_count self)
           mod (1 * 32) =? 0)
  then transcribe_buffer self
  else self.

Definition reply_if_due (self : AudioRecording) : AudioRecording :=
  if Z_ge_Q (silence_frame_count self) silence_limit
     && Z_ge_Q (speaking_frame_count self) speaking_minimum
  then set_state State.start_reply (transcribe_buffer self)
  else self.

Definition standby_if_due (self : AudioRecording) : AudioRecording :=
  if silence_frame_count self >=? silence_time_to_standby then
    set_state State.waiting_for_wakeup
      (set_speaking_frame_count 0
         (set_silence_frame_count 0
            (call (play_audio_file_non_blocking "byebye.mp3") self)))
  else self.

(** What [replying_loop] does with the polled event, before it asks the
    detector anything. *)
Definition handle_event (e : option ReplyEvent) (self : AudioRecording)
  : AudioRecording :=
  match e with
  | Some (assistent_message data) =>
      set_conversation (conversation self ++ [data]) self
  | Some (play_beep data) =>
      call (play_audio_file_non_blocking data)
        (call (detector_pause_for 32) self)
  | Some (reply_audio_started data) =>
      call (detector_start_reply_interruption_check data)
        (set_speaking_frame_count 0 (set_silence_frame_count 0 self))
  | Some reply_audio_ended => call detector_stop self
  | Some other_action => self
  | None => self
  end.

(** The assistant messages a polled event adds to the conversation. *)
Definition polled_messages (e : option ReplyEvent) : list Message :=
  match e with
  | Some (assistent_message data) => [data]
  | _ => []
  end.

(** The cap that [drop_early_recording_audio_frames] tests against. *)
Definition cap (self : AudioRecording) : Z :=
  if State.eqb (state self) State.waiting_for_wakeup
  then buffer_size_when_not_listening
  else buffer_size_on_active_listening.

(** Bytes removed by [drop_early_recording_audio_frames]. *)
Definition dropped_bytes (self : AudioRecording) : Z :=
  Z.of_nat (length (recording_audio_buffer self))
  - Z.of_nat (length (recording_audio_buffer
                        (drop_early_recording_audio_frames self))).

(** ** Predicates on ticks, sessions and logs *)

(** Ticks whose frame [is_silence] classifies as speech, as silence. *)
Definition loud (t : Tick) : Prop := is_silence (recorder_read t) = false.
Definition quiet (t : Tick) : Prop := is_silence (recorder_read t) = true.

(** A tick that delivers one full frame. *)
Definition framed (t : Tick) : Prop :=
  Z.of_nat (length (recorder_read t)) = frame_length.

(** A tick of a reply still playing: not done, not interrupted. *)
Definition playing (t : Tick) : Prop :=
  is_done t = false /\ check_for_interruption t = false.

(** The detector is held exactly in state [replying]. *)
Definition detector_iff_replying (self : AudioRecording) : Prop :=
  interruption_detection self <> None <-> state self = State.replying.

(** Counting calls in the log. *)
Definition is_detector_stop (c : Call) : bool :=
  match c with
  | detector_stop => true
  | _ => false
  end.

(** How many times [interruption_detection.stop()] was called. *)
Definition stops (cs : list Call) : nat := length (filter is_detector_stop cs).

(** 1 when the poll of this tick delivers [reply_audio_ended]. *)
Definition ended (t : Tick) : nat :=
  match chat_gpt_get t with
  | Some reply_audio_ended => 1
  | _ => 0
  end.

Definition ended_polls (ts : list Tick) : nat := list_sum (map ended ts).

(** The transitions of the turn controller: [allowed_successor a b] when a
    call of [next_frame] in state [a] may end in state [b]. *)
Definition allowed_successor (a b : RecordingState) : bool :=
  match a, b with
  | State.waiting_for_wakeup, (State.waiting_for_wakeup | State.start_reply)
  | State.waiting_for_silence,
    (State.waiting_for_silence | State.start_reply | State.waiting_for_wakeup)
  | State.start_reply, (State.waiting_for_silence | State.replying)
  | State.replying, (State.replying | State.waiting_for_silence) => true
  | _, _ => false
  end.

(** [is_suffix b a]: [b] is what is left of [a] once its oldest elements
    are dropped. *)
Definition is_suffix {A : Type} (b a : list A) : Prop :=
  exists older, a = older ++ b.

Definition is_consume (c : Call) : bool :=
  match c with
  | transcriber_consume _ => true
  | _ => false
  end.

(** How many times [transcriber.consume] was called. *)
Definition consumes (cs : list Call) : nat := length (filter is_consume cs).

Definition is_reply (c : Call) : bool :=
  match c with
  | chat_gpt_reply _ => true
  | _ => false
  end.

(** How many times [chat_gpt.reply] was called. *)
Definition replies (cs : list Call) : nat := length (filter is_reply cs).

(** The messages that one call of [next_frame] appends to the
    conversation: the user's transcript in [start_reply] unless it is
    blank, a polled assistant message in [replying], nothing otherwise. *)
Definition messages_of_frame (t : Tick) (self : AudioRecording)
  : list Message :=
  match state self with
  | State.start_reply =>
      if forallb py_isspace (transcribe_and_stop t) then []
      else [{| role := "user"; content := transcribe_and_stop t |}]
  | State.replying =>
      match interruption_detection self with
      | Some _ => polled_messages (chat_gpt_get t)
      | None => []
      end
  | _ => []
  end.

Fixpoint messages_of_run (ts : list Tick) (self : AudioRecording)
  : list Message :=
  match ts with
  | [] => []
  | t :: ts' => messages_of_frame t self ++ messages_of_run ts' (next_frame t self)
  end.

(** The packed bytes of the frames of a run, oldest first. *)
Definition frames_bytes (ts : list Tick) : list byte :=
  flat_map (fun t => struct_pack (recorder_read t)) ts.

(** How many frames of a run take the machine from [start_reply] into
    [replying]. *)
Fixpoint replying_entries (ts : list Tick) (self : AudioRecording) : nat :=
  match ts with
  | [] => 0
  | t :: ts' =>
      (if State.eqb (state self) State.start_reply
          && State.eqb (state (next_frame t self)) State.replying
       then 1 else 0)
      + replying_entries ts' (next_frame t self)
  end.

(** Whether the recorder is started after the calls of a log: the last
    of [recorder.start()] and [recorder.stop()] decides; [on] before any. *)
Definition recorder_after (on : bool) (cs : list Call) : bool :=
  fold_left (fun on c =>
               match c with
               | recorder_start => true
               | recorder_stop => false
               | _ => on
               end) cs on.

Definition recorder_running (cs : list Call) : bool := recorder_after false cs.

(** Milliseconds of audio held in [n] buffered bytes: [frame_bytes] bytes
    hold the [frame_length] samples of a frame, and [sample_rate] samples
    last one second. *)
Definition audio_ms (n : Z) : Z :=
  n * frame_length * 1000 / (frame_bytes * sample_rate).

(** ** Concrete frames and sessions *)

Definition system_message : Message := {| role := "system"; content := [] |}.

Definition assistant_said : Message :=
  {| role := "assistant"; content := [111; 107]%N |}.

(** A frame of 512 samples of amplitude 1000, and a frame of 512 zeros. *)
Definition loud_tick : Tick :=
  {| recorder_read := repeat 1000 512;
     porcupine_process := -1;
     transcribe_and_stop := [];
     chat_gpt_get := None;
     is_done := false;
     check_for_interruption := false |}.

Definition quiet_tick : Tick :=
  {| recorder_read := repeat 0 512;
     porcupine_process := -1;
     transcribe_and_stop := [];
     chat_gpt_get := None;
     is_done := false;
     check_for_interruption := false |}.

(** The transcriber returns "hi". *)
Definition answer_tick : Tick :=
  {| recorder_read := repeat 0 512;
     porcupine_process := -1;
     transcribe_and_stop := [104; 105]%N;
     chat_gpt_get := None;
     is_done := false;
     check_for_interruption := false |}.

(** The transcriber returns a space, a tab and a newline. *)
Definition blank_transcript_tick : Tick :=
  {| recorder_read := repeat 0 512;
     porcupine_process := -1;
     transcribe_and_stop := [32; 9; 10]%N;
     chat_gpt_get := None;
     is_done := false;
     check_for_interruption := false |}.

(** The reply is reported finished on a poll that delivers nothing. *)
Definition done_tick : Tick :=
  {| recorder_read := repeat 0 512;
     porcupine_process := -1;
     transcribe_and_stop := [];
     chat_gpt_get := None;
     is_done := true;
     check_for_interruption := false |}.

(** The user speaks over the reply on the very poll that delivers the
    assistant's message. *)
Definition interrupt_tick : Tick :=
  {| recorder_read := repeat 1000 512;
     porcupine_process := -1;
     transcribe_and_stop := [];
     chat_gpt_get := Some (assistent_message assistant_said);
     is_done := false;
     check_for_interruption := true |}.

(** A session in [start_reply]. *)
Definition session_at_start_reply : AudioRecording :=
  {| state := State.start_reply;
     conversation := [{| role := "system"; content := [] |}];
     silence_frame_count := 16;
     speaking_frame_count := 10;
     recording_audio_buffer := [];
     interruption_detection := None;
     calls := [] |}.

(** Ten speech frames and fifteen silence frames into listening. *)
Definition listening_session : AudioRecording :=
  run (repeat loud_tick 10 ++ repeat quiet_tick 15) (init system_message).

(** A run of the machine from its start into the middle of a reply: ten
    speech frames and sixteen silence frames ([heard_session], in
    [start_reply]), the transcript "hi" ([replying_session], just entered
    [replying]), and forty more frames while the reply plays
    ([mid_reply_session]). *)
Definition heard_session : AudioRecording :=
  run (repeat loud_tick 10 ++ repeat quiet_tick 16) (init system_message).

Definition replying_session : AudioRecording :=
  next_frame answer_tick heard_session.

Definition mid_reply_session : AudioRecording :=
  run (repeat quiet_tick 40) replying_session.

(** The session after 320 silent frames from the start: on standby for the
    wake word, the buffer holding those 320 frames. *)
Definition idle_session : AudioRecording :=
  run (repeat quiet_tick 320) (init system_message).

Arguments slice_from : simpl never.
Arguments struct_pack : simpl never.
Arguments is_silence : simpl never.

(** Sixty-four speech frames from the start: the second flush has just
    happened. *)
Definition long_speech_session : AudioRecording :=
  run (repeat loud_tick 64) (init system_message).

(** A hundred frames into a reply: more than three seconds are buffered. *)
Definition long_reply_session : AudioRecording :=
  run (repeat quiet_tick 100) replying_session.

(** The wake word is heard. *)
Definition wake_tick : Tick :=
  {| recorder_read := repeat 0 512;
     porcupine_process := 0;
     transcribe_and_stop := [];
     chat_gpt_get := None;
     is_done := false;
     check_for_interruption := false |}.

(** * Properties *)

(** ** Slices and packed frames *)

Section Slices.
Context {A : Type}.
Implicit Types (l : list A) (i n : Z).

Lemma slice_from_suffix i l : exists older, l = older ++ slice_from i l.
Proof.
  unfold slice_from.
  set (k := Z.to_nat _).
  exists (firstn k l). symmetry. apply firstn_skipn.
Qed.

Lemma slice_from_length i l :
  Z.of_nat (length (slice_from i l)) =
  Z.of_nat (length l)
  - (if i <? 0 then Z.max (Z.of_nat (length l) + i) 0
     else Z.min i (Z.of_nat (length l))).
Proof.
  unfold slice_from. rewrite length_skipn.
  destruct (Z.ltb_spec i 0); lia.
Qed.

(** [l[-n:]] for a positive [n] is the last [n] elements, or all of [l]. *)
Lemma slice_last_length n l :
  0 < n ->
  Z.of_nat (length (slice_from (- n) l)) = Z.min n (Z.of_nat (length l)).
Proof.
  intros Hn. rewrite slice_from_length.
  destruct (Z.ltb_spec (- n) 0); lia.
Qed.

(** [l[n:]] for a non-negative [n] drops the first [n] elements. *)
Lemma slice_tail_length n l :
  0 <= n ->
  Z.of_nat (length (slice_from n l)) =
  Z.of_nat (length l) - Z.min n (Z.of_nat (length l)).
Proof.
  intros Hn. rewrite slice_from_length.
  destruct (Z.ltb_spec n 0); lia.
Qed.

End Slices.

Lemma pack_h_length x : length (pack_h x) = 2%nat.
Proof. reflexivity. Qed.

Lemma struct_pack_length pcm :
  Z.of_nat (length (struct_pack pcm)) = 2 * Z.of_nat (length pcm).
Proof.
  unfold struct_pack. induction pcm as [|x pcm IH].
  - reflexivity.
  - cbn [flat_map]. rewrite length_app, pack_h_length.
    cbn [length]. lia.
Qed.

(** A frame of [frame_length] samples takes [frame_bytes] bytes. *)
Lemma frame_struct_pack_length pcm :
  Z.of_nat (length pcm) = frame_length ->
  Z.of_nat (length (struct_pack pcm)) = frame_bytes.
Proof.
  intros H. rewrite struct_pack_length, H. reflexivity.
Qed.

(** ** The transcription flush *)

(** C10, without the duration.  A flush by [transcribe_buffer] leaves in the
    audio buffer exactly the last [frame_length * 32 * 3] bytes of what it
    held (all of it when it held fewer): the bytes kept are a suffix of the
    buffer before the flush, and there are at most [frame_length * 32 * 3]
    of them. *)
Theorem transcribe_buffer_keeps_recent (self : AudioRecording) :
  let kept := recording_audio_buffer (transcribe_buffer self) in
  (exists older, recording_audio_buffer self = older ++ kept)
  /\ Z.of_nat (length kept)
     = Z.min (frame_length * 32 * 3)
             (Z.of_nat (length (recording_audio_buffer self)))
  /\ Z.of_nat (length kept) <= frame_length * 32 * 3.
Proof.
  cbn zeta. unfold transcribe_buffer. cbn [recording_audio_buffer set_recording_audio_buffer call].
  replace (Z.max (frame_length * 32 * 3) 0) with (frame_length * 32 * 3)
    by reflexivity.
  split; [apply slice_from_suffix|].
  rewrite slice_last_length by reflexivity. lia.
Qed.

(** C10 as stated fails on the duration: [frame_length * 32 * 3] bytes are
    48 frames, 1536 ms of audio, not about three seconds.  After 64 speech
    frames from the start the buffer holds exactly that much; and of a
    buffer holding 3216 ms a flush keeps 1536 ms. *)
Lemma transcribe_buffer_duration_counterexample :
  frame_length * 32 * 3 = 49152
  /\ 49152 = 48 * frame_bytes
  /\ audio_ms (frame_length * 32 * 3) = 1536
  /\ state long_speech_session = State.waiting_for_silence
  /\ Z.of_nat (length (recording_audio_buffer long_speech_session)) = 49152
  /\ audio_ms (Z.of_nat (length (recording_audio_buffer long_reply_session)))
     = 3216
  /\ audio_ms (Z.of_nat (length (recording_audio_buffer
                                   (transcribe_buffer long_reply_session))))
     = 1536.
Proof.
  vm_compute. repeat split.
Qed.

(** ** What the buffer bookkeeping leaves alone *)

Lemma drop_early_frame (self : AudioRecording) :
  let self' := drop_early_recording_audio_frames self in
  state self' = state self
  /\ conversation self' = conversation self
  /\ silence_frame_count self' = silence_frame_count self
  /\ speaking_frame_count self' = speaking_frame_count self
  /\ interruption_detection self' = interruption_detection self
  /\ calls self' = calls self.
Proof.
  cbn zeta. unfold drop_early_recording_audio_frames.
  destruct (_ >? _); cbn; repeat split.
Qed.

Lemma append_frame_frame pcm (self : AudioRecording) :
  let self' := append_frame pcm self in
  state self' = state self
  /\ conversation self' = conversation self
  /\ silence_frame_count self' = silence_frame_count self
  /\ speaking_frame_count self' = speaking_frame_count self
  /\ interruption_detection self' = interruption_detection self
  /\ calls self' = calls self.
Proof.
  cbn zeta. unfold append_frame.
  apply (drop_early_frame (set_recording_audio_buffer _ self)).
Qed.

Lemma append_frame_state pcm self : state (append_frame pcm self) = state self.
Proof. apply append_frame_frame. Qed.

Lemma append_frame_conversation pcm self :
  conversation (append_frame pcm self) = conversation self.
Proof. apply append_frame_frame. Qed.

Lemma append_frame_silence pcm self :
  silence_frame_count (append_frame pcm self) = silence_frame_count self.
Proof. apply append_frame_frame. Qed.

Lemma append_frame_speaking pcm self :
  speaking_frame_count (append_frame pcm self) = speaking_frame_count self.
Proof. apply append_frame_frame. Qed.

Lemma append_frame_detector pcm self :
  interruption_detection (append_frame pcm self) = interruption_detection self.
Proof. apply append_frame_frame. Qed.

Lemma append_frame_calls pcm self : calls (append_frame pcm self) = calls self.
Proof. apply append_frame_frame. Qed.

Create Rewrite HintDb frame.
#[local] Hint Rewrite append_frame_state append_frame_conversation
  append_frame_silence append_frame_speaking append_frame_detector
  append_frame_calls : frame.

(** [next_frame] dispatches on the state it was called in. *)
Lemma next_frame_dispatch t self :
  next_frame t self =
  let self' := append_frame (recorder_read t) self in
  match state self with
  | State.waiting_for_wakeup => waiting_for_wakeup t self'
  | State.waiting_for_silence => waiting_for_silence (recorder_read t) self'
  | State.start_reply => start_reply_step t self'
  | State.replying => replying_loop t self'
  end.
Proof. unfold next_frame. cbn zeta. now rewrite append_frame_state. Qed.

(** ** Whitespace *)

Lemma lstrip_nil_iff (s : pystr) :
  lstrip s = [] <-> forallb py_isspace s = true.
Proof.
  induction s as [|c s IH]; cbn [lstrip forallb].
  - tauto.
  - destruct (py_isspace c); cbn [andb].
    + exact IH.
    + split; discriminate.
Qed.

Lemma lstrip_all_space (s : pystr) :
  forallb py_isspace (lstrip s) = true -> lstrip s = [].
Proof.
  induction s as [|c s IH]; cbn [lstrip]; [reflexivity|].
  destruct (py_isspace c) eqn:E; [exact IH|].
  cbn [forallb]. rewrite E. discriminate.
Qed.

Lemma forallb_rev {A : Type} (f : A -> bool) (l : list A) :
  forallb f (rev l) = forallb f l.
Proof.
  induction l as [|a l IH]; [reflexivity|].
  cbn [rev forallb]. rewrite forallb_app, IH. cbn [forallb].
  now rewrite andb_true_r, andb_comm.
Qed.

(** [s.strip()] is empty exactly when [s] is empty or all whitespace. *)
Lemma strip_nil_iff (s : pystr) :
  strip s = [] <-> forallb py_isspace s = true.
Proof.
  unfold strip, rstrip. split.
  - intros H. apply (f_equal (@rev N)) in H.
    rewrite rev_involutive in H. cbn [rev] in H.
    apply lstrip_nil_iff in H. rewrite forallb_rev in H.
    apply lstrip_nil_iff. now apply lstrip_all_space.
  - intros H. apply lstrip_nil_iff in H. rewrite H. reflexivity.
Qed.

(** ** The [start_reply] step *)

(** C4.  In state [start_reply], when the finalized transcript is empty or
    consists of whitespace only, [next_frame] leaves the conversation as it
    was, asks nothing of the reply pipeline (the only requests made are the
    recorder stop, the transcript, the recorder start and the transcriber
    restart) and ends in state [waiting_for_silence]. *)
Theorem empty_transcript_is_false_trigger (t : Tick) (self : AudioRecording) :
  state self = State.start_reply ->
  forallb py_isspace (transcribe_and_stop t) = true ->
  let self' := next_frame t self in
  conversation self' = conversation self
  /\ length (conversation self') = length (conversation self)
  /\ calls self' =
     calls self ++ [recorder_stop; transcriber_transcribe_and_stop;
                    recorder_start; transcriber_restart]
  /\ (forall c, ~ In (chat_gpt_reply c)
                  [recorder_stop; transcriber_transcribe_and_stop;
                   recorder_start; transcriber_restart])
  /\ state self' = State.waiting_for_silence.
Proof.
  intros Hst Hws. cbn zeta.
  rewrite next_frame_dispatch, Hst. cbn zeta.
  unfold start_reply_step. cbn zeta.
  apply strip_nil_iff in Hws. rewrite Hws. cbn [length Nat.eqb].
  cbn. autorewrite with frame.
  repeat split.
  - now rewrite <- !app_assoc.
  - intros c [H|[H|[H|[H|[]]]]]; discriminate.
Qed.

Lemma empty_transcript_is_false_trigger_witness :
  let self' := next_frame blank_transcript_tick session_at_start_reply in
  conversation self' = conversation session_at_start_reply
  /\ length (conversation self') = length (conversation session_at_start_reply)
  /\ calls self' =
     calls session_at_start_reply
       ++ [recorder_stop; transcriber_transcribe_and_stop;
           recorder_start; transcriber_restart]
  /\ (forall c, ~ In (chat_gpt_reply c)
                  [recorder_stop; transcriber_transcribe_and_stop;
                   recorder_start; transcriber_restart])
  /\ state self' = State.waiting_for_silence.
Proof.
  apply (empty_transcript_is_false_trigger
           blank_transcript_tick session_at_start_reply);
    reflexivity.
Defined.

(** ** The interruption detector lives exactly in state [replying] *)

Ltac break_if :=
  match goal with
  | |- context [if ?c then _ else _] => destruct c eqn:?
  end.

Lemma waiting_for_silence_detector pcm self :
  interruption_detection (waiting_for_silence pcm self)
  = interruption_detection self.
Proof.
  unfold waiting_for_silence, transcribe_buffer. cbn zeta.
  destruct (is_silence pcm); repeat break_if; reflexivity.
Qed.

Lemma waiting_for_silence_state pcm self :
  let st := state (waiting_for_silence pcm self) in
  st = state self \/ st = State.start_reply \/ st = State.waiting_for_wakeup.
Proof.
  unfold waiting_for_silence, transcribe_buffer. cbn zeta.
  destruct (is_silence pcm); repeat break_if; cbn; auto.
Qed.

Lemma init_detector_iff_replying m : detector_iff_replying (init m).
Proof. split; [intros H; now elim H | discriminate]. Qed.

Lemma next_frame_detector_iff_replying t self :
  detector_iff_replying self -> detector_iff_replying (next_frame t self).
Proof.
  unfold detector_iff_replying. intros [Hpresent Hreplying].
  rewrite next_frame_dispatch. cbn zeta.
  pose proof (append_frame_frame (recorder_read t) self) as F.
  cbn zeta in F. destruct F as (Fst & _ & _ & _ & Fdet & _).
  set (self1 := append_frame (recorder_read t) self) in *.
  destruct (state self) eqn:Hst.
  - (* waiting_for_wakeup *)
    assert (Hnone : interruption_detection self1 = None).
    { rewrite Fdet. destruct (interruption_detection self); [|reflexivity].
      assert (State.waiting_for_wakeup = State.replying)
        by (apply Hpresent; discriminate). discriminate. }
    unfold waiting_for_wakeup. cbn zeta. break_if; cbn; rewrite ?Hnone, ?Fst;
      split; congruence.
  - (* waiting_for_silence *)
    rewrite waiting_for_silence_detector.
    assert (Hnone : interruption_detection self1 = None).
    { rewrite Fdet. destruct (interruption_detection self); [|reflexivity].
      assert (State.waiting_for_silence = State.replying)
        by (apply Hpresent; discriminate). discriminate. }
    pose proof (waiting_for_silence_state (recorder_read t) self1) as Hs.
    cbn zeta in Hs. rewrite Fst in Hs. rewrite Hnone.
    split; [congruence|]. intros E. rewrite E in Hs.
    destruct Hs as [Hs|[Hs|Hs]]; discriminate.
  - (* start_reply *)
    unfold start_reply_step. cbn zeta. break_if; cbn; split;
      congruence.
  - (* replying *)
    unfold replying_loop. rewrite Fdet.
    destruct (interruption_detection self) eqn:Hdet.
    + cbn zeta. destruct (is_done t); [cbn; split; congruence|].
      destruct (check_for_interruption t); [cbn; split; congruence|].
      destruct (chat_gpt_get t) as [[ | | | | ]|]; cbn; rewrite ?Fst, ?Fdet;
        split; congruence.
    + exfalso. now apply Hreplying.
Qed.

Lemma run_detector_iff_replying ts self :
  detector_iff_replying self -> detector_iff_replying (run ts self).
Proof.
  revert self. unfold run.
  induction ts as [|t ts IH]; intros self H; cbn [fold_left]; [exact H|].
  apply IH. now apply next_frame_detector_iff_replying.
Qed.

(** C5.  In every session reached from the initial one by calls of
    [next_frame], whatever the collaborators answer, the interruption
    detector is present exactly when the state is [replying]. *)
Theorem detector_present_iff_replying (m : Message) (ts : list Tick) :
  let self := run ts (init m) in
  interruption_detection self <> None <-> state self = State.replying.
Proof.
  cbn zeta. apply run_detector_iff_replying, init_detector_iff_replying.
Qed.

(** ** Listening: speech followed by silence *)

Lemma Z_ge_Q_silence_limit n : Z_ge_Q n silence_limit = (16 <=? n).
Proof.
  unfold Z_ge_Q. apply eq_true_iff_eq.
  rewrite Qle_bool_iff, Z.leb_le. unfold Qle. cbn. lia.
Qed.

Lemma Z_ge_Q_speaking_minimum n : Z_ge_Q n speaking_minimum = (10 <=? n).
Proof.
  unfold Z_ge_Q. apply eq_true_iff_eq.
  rewrite Qle_bool_iff, Z.leb_le. unfold Qle. cbn. lia.
Qed.

Lemma Z_lt_Q_speaking_minimum n : Z_lt_Q n speaking_minimum = (n <? 10).
Proof.
  change (Z_lt_Q n speaking_minimum) with (negb (Z_ge_Q n speaking_minimum)).
  rewrite Z_ge_Q_speaking_minimum. apply eq_true_iff_eq.
  rewrite negb_true_iff, Z.leb_gt, Z.ltb_lt. tauto.
Qed.

Lemma Z_ge_Q_twice_silence_limit n :
  Z_ge_Q n (silence_limit * 2) = (32 <=? n).
Proof.
  unfold Z_ge_Q. apply eq_true_iff_eq.
  rewrite Qle_bool_iff, Z.leb_le. unfold Qle. cbn. lia.
Qed.

Lemma transcribe_buffer_frame (self : AudioRecording) :
  let self' := transcribe_buffer self in
  state self' = state self
  /\ conversation self' = conversation self
  /\ silence_frame_count self' = silence_frame_count self
  /\ speaking_frame_count self' = speaking_frame_count self
  /\ interruption_detection self' = interruption_detection self.
Proof. cbn. repeat split. Qed.

Lemma waiting_for_silence_parts pcm self :
  waiting_for_silence pcm self
  = standby_if_due (reply_if_due (flush_if_due (count_frame pcm self))).
Proof. reflexivity. Qed.

Lemma count_frame_loud pcm self :
  is_silence pcm = false ->
  let self' := count_frame pcm self in
  state self' = state self
  /\ silence_frame_count self' = 0
  /\ speaking_frame_count self' = speaking_frame_count self + 1.
Proof.
  intros H. unfold count_frame. rewrite H. cbn zeta.
  break_if; cbn; auto.
Qed.

Lemma count_frame_quiet pcm self :
  is_silence pcm = true ->
  let self' := count_frame pcm self in
  state self' = state self
  /\ silence_frame_count self' = silence_frame_count self + 1
  /\ speaking_frame_count self' =
     (if (speaking_frame_count self <? 10)
         && (32 <=? silence_frame_count self + 1)
      then 0 else speaking_frame_count self).
Proof.
  intros H. unfold count_frame. rewrite H. cbn zeta.
  cbn [silence_frame_count speaking_frame_count set_silence_frame_count].
  rewrite Z_lt_Q_speaking_minimum, Z_ge_Q_twice_silence_limit.
  break_if; cbn; auto.
Qed.

Lemma flush_if_due_frame self :
  let self' := flush_if_due self in
  state self' = state self
  /\ silence_frame_count self' = silence_frame_count self
  /\ speaking_frame_count self' = speaking_frame_count self.
Proof. unfold flush_if_due. break_if; cbn; auto. Qed.

Lemma reply_if_due_frame self :
  let self' := reply_if_due self in
  state self' =
    (if (16 <=? silence_frame_count self) && (10 <=? speaking_frame_count self)
     then State.start_reply else state self)
  /\ silence_frame_count self' = silence_frame_count self
  /\ speaking_frame_count self' = speaking_frame_count self.
Proof.
  unfold reply_if_due.
  rewrite Z_ge_Q_silence_limit, Z_ge_Q_speaking_minimum.
  break_if; cbn; auto.
Qed.

Lemma standby_if_due_frame self :
  let self' := standby_if_due self in
  if 320 <=? silence_frame_count self then
    state self' = State.waiting_for_wakeup
    /\ silence_frame_count self' = 0
    /\ speaking_frame_count self' = 0
  else self' = self.
Proof.
  unfold standby_if_due, silence_time_to_standby. cbn zeta.
  rewrite Z.geb_leb. change (10 * 32) with 320.
  break_if; cbn; auto.
Qed.

(** The state and the counters after one frame in [waiting_for_silence],
    in terms of the counters [si], [sp] as updated by the frame. *)
Lemma waiting_for_silence_counts pcm self :
  let counted := count_frame pcm self in
  let si := silence_frame_count counted in
  let sp := speaking_frame_count counted in
  let self' := waiting_for_silence pcm self in
  if 320 <=? si then
    state self' = State.waiting_for_wakeup
    /\ silence_frame_count self' = 0
    /\ speaking_frame_count self' = 0
  else
    state self' = (if (16 <=? si) && (10 <=? sp)
                   then State.start_reply else state counted)
    /\ silence_frame_count self' = si
    /\ speaking_frame_count self' = sp.
Proof.
  cbn zeta. rewrite waiting_for_silence_parts.
  set (counted := count_frame pcm self).
  destruct (flush_if_due_frame counted) as (F1 & F2 & F3).
  destruct (reply_if_due_frame (flush_if_due counted)) as (R1 & R2 & R3).
  pose proof (standby_if_due_frame (reply_if_due (flush_if_due counted))) as S.
  cbn zeta in S. rewrite R2, F2 in S.
  destruct (320 <=? silence_frame_count counted); [exact S|].
  rewrite S, R1, R2, R3, F1, F2, F3. auto.
Qed.

(** A speech frame while listening: the speech counter advances, the
    silence counter restarts, the state stays. *)
Lemma speech_frame t self :
  state self = State.waiting_for_silence ->
  loud t ->
  let self' := next_frame t self in
  state self' = State.waiting_for_silence
  /\ silence_frame_count self' = 0
  /\ speaking_frame_count self' = speaking_frame_count self + 1.
Proof.
  intros Hst Hloud. cbn zeta. rewrite next_frame_dispatch, Hst. cbn zeta.
  pose proof (waiting_for_silence_counts (recorder_read t)
                (append_frame (recorder_read t) self)) as W.
  cbn zeta in W.
  destruct (count_frame_loud (recorder_read t)
              (append_frame (recorder_read t) self) Hloud) as (C1 & C2 & C3).
  rewrite C1, C2, C3 in W. autorewrite with frame in W.
  cbn in W. now rewrite Hst in W.
Qed.

(** A silence frame while listening after enough speech: the silence
    counter advances, and the state becomes [start_reply] exactly when the
    counter reaches 16. *)
Lemma silence_frame t self :
  state self = State.waiting_for_silence ->
  quiet t ->
  10 <= speaking_frame_count self ->
  0 <= silence_frame_count self < 16 ->
  let self' := next_frame t self in
  state self' = (if silence_frame_count self + 1 =? 16
                 then State.start_reply else State.waiting_for_silence)
  /\ silence_frame_count self' = silence_frame_count self + 1
  /\ speaking_frame_count self' = speaking_frame_count self.
Proof.
  intros Hst Hquiet Hsp Hsi. cbn zeta. rewrite next_frame_dispatch, Hst.
  cbn zeta.
  pose proof (waiting_for_silence_counts (recorder_read t)
                (append_frame (recorder_read t) self)) as W.
  cbn zeta in W.
  destruct (count_frame_quiet (recorder_read t)
              (append_frame (recorder_read t) self) Hquiet) as (C1 & C2 & C3).
  rewrite C1, C2, C3 in W. autorewrite with frame in W.
  replace (speaking_frame_count self <? 10) with false in W
    by (symmetry; apply Z.ltb_ge; lia).
  cbn [andb] in W.
  replace (320 <=? silence_frame_count self + 1) with false in W
    by (symmetry; apply Z.leb_gt; lia).
  replace (10 <=? speaking_frame_count self) with true in W
    by (symmetry; apply Z.leb_le; lia).
  rewrite andb_true_r, Hst in W.
  destruct (Z.eqb_spec (silence_frame_count self + 1) 16) as [E|E].
  - replace (16 <=? silence_frame_count self + 1) with true in W
      by (symmetry; apply Z.leb_le; lia). exact W.
  - replace (16 <=? silence_frame_count self + 1) with false in W
      by (symmetry; apply Z.leb_gt; lia). exact W.
Qed.

Lemma run_app ts1 ts2 self : run (ts1 ++ ts2) self = run ts2 (run ts1 self).
Proof. apply fold_left_app. Qed.

Lemma states_of_run_app ts1 ts2 self :
  states_of_run (ts1 ++ ts2) self
  = states_of_run ts1 self ++ states_of_run ts2 (run ts1 self).
Proof.
  revert self. induction ts1 as [|t ts1 IH]; intros self; [reflexivity|].
  cbn [app states_of_run]. now rewrite IH.
Qed.

Lemma Forall_firstn {A : Type} (P : A -> Prop) (k : nat) (l : list A) :
  Forall P l -> Forall P (firstn k l).
Proof.
  revert l. induction k as [|k IH]; intros l H; [constructor|].
  destruct H as [|x l Hx Hl]; cbn [firstn]; constructor; auto.
Qed.

(** Speech frames only: the machine keeps listening and counts them. *)
Lemma speech_run speech : forall self,
  state self = State.waiting_for_silence ->
  silence_frame_count self = 0 ->
  Forall loud speech ->
  states_of_run speech self
    = repeat State.waiting_for_silence (length speech)
  /\ state (run speech self) = State.waiting_for_silence
  /\ silence_frame_count (run speech self) = 0
  /\ speaking_frame_count (run speech self)
     = speaking_frame_count self + Z.of_nat (length speech).
Proof.
  induction speech as [|t speech IH]; intros self Hst Hsi Hall.
  - cbn. repeat split; auto; lia.
  - inversion Hall as [|? ? Ht Hrest]; subst.
    destruct (speech_frame t self Hst Ht) as (S1 & S2 & S3).
    destruct (IH (next_frame t self) S1 S2 Hrest) as (I1 & I2 & I3 & I4).
    change (run (t :: speech) self) with (run speech (next_frame t self)).
    cbn [states_of_run length repeat]. rewrite I1, S1, I4, S3.
    repeat split; auto; lia.
Qed.

(** Silence frames after enough speech, short of the sixteenth: the machine
    keeps listening and counts them. *)
Lemma silence_run silence : forall self,
  state self = State.waiting_for_silence ->
  10 <= speaking_frame_count self ->
  0 <= silence_frame_count self ->
  silence_frame_count self + Z.of_nat (length silence) < 16 ->
  Forall quiet silence ->
  states_of_run silence self
    = repeat State.waiting_for_silence (length silence)
  /\ state (run silence self) = State.waiting_for_silence
  /\ silence_frame_count (run silence self)
     = silence_frame_count self + Z.of_nat (length silence)
  /\ speaking_frame_count (run silence self) = speaking_frame_count self.
Proof.
  induction silence as [|t silence IH]; intros self Hst Hsp Hsi Hlen Hall.
  - cbn. repeat split; auto; lia.
  - inversion Hall as [|? ? Ht Hrest]; subst. cbn [length] in Hlen.
    destruct (silence_frame t self Hst Ht Hsp) as (S1 & S2 & S3); [lia|].
    replace (silence_frame_count self + 1 =? 16) with false in S1
      by (symmetry; apply Z.eqb_neq; lia).
    destruct (IH (next_frame t self)) as (I1 & I2 & I3 & I4);
      [assumption | lia | lia | lia | assumption |].
    change (run (t :: silence) self) with (run silence (next_frame t self)).
    cbn [states_of_run length repeat]. rewrite I1, S1, I3, I4, S2, S3.
    repeat split; auto; lia.
Qed.

(** C2.  From [waiting_for_silence] with both counters at zero, a run of
    speech frames whose number reaches [speaking_minimum] (ten frames are
    the fewest that do), followed by [silence_limit] silence frames, keeps
    the machine in [waiting_for_silence] on every frame but the last and
    moves it to [start_reply] on the last one: the transition happens once.
    After any shorter run of the silence frames the silence counter is
    still below [silence_limit]; on the last frame it equals
    [silence_limit], with the speech counter at least [speaking_minimum]. *)
Theorem speech_then_silence_starts_reply
  (self : AudioRecording) (speech silence : list Tick) :
  state self = State.waiting_for_silence ->
  silence_frame_count self = 0 ->
  speaking_frame_count self = 0 ->
  Forall loud speech ->
  Forall quiet silence ->
  (speaking_minimum <= inject_Z (Z.of_nat (length speech)))%Q ->
  (inject_Z (Z.of_nat (length silence)) == silence_limit)%Q ->
  states_of_run (speech ++ silence) self
    = repeat State.waiting_for_silence (length speech + length silence - 1)
      ++ [State.start_reply]
  /\ (forall k, (k < length silence)%nat ->
        let before := run (speech ++ firstn k silence) self in
        state before = State.waiting_for_silence
        /\ silence_frame_count before = Z.of_nat k
        /\ (inject_Z (silence_frame_count before) < silence_limit)%Q)
  /\ (let after := run (speech ++ silence) self in
      state after = State.start_reply
      /\ (inject_Z (silence_frame_count after) == silence_limit)%Q
      /\ (speaking_minimum <= inject_Z (speaking_frame_count after))%Q).
Proof.
  intros Hst Hsi Hsp Hloud Hquiet Hmin Hlim.
  assert (Hn : 10 <= Z.of_nat (length speech)).
  { apply Z.leb_le. rewrite <- Z_ge_Q_speaking_minimum.
    now apply Qle_bool_iff. }
  assert (Hm : length silence = 16%nat).
  { unfold Qeq, silence_limit in Hlim. cbn in Hlim. lia. }
  destruct (speech_run speech self Hst Hsi Hloud) as (P1 & P2 & P3 & P4).
  rewrite Hsp in P4. cbn zeta.
  assert (Hprefix : forall k, (k < length silence)%nat ->
    let before := run (firstn k silence) (run speech self) in
    states_of_run (firstn k silence) (run speech self)
      = repeat State.waiting_for_silence k
    /\ state before = State.waiting_for_silence
    /\ silence_frame_count before = Z.of_nat k
    /\ speaking_frame_count before = Z.of_nat (length speech)).
  { intros k Hk. cbn zeta.
    assert (Hlen : length (firstn k silence) = k)
      by (rewrite length_firstn; lia).
    destruct (silence_run (firstn k silence) (run speech self))
      as (Q1 & Q2 & Q3 & Q4);
      [assumption | lia | lia | rewrite Hlen; lia
      | now apply Forall_firstn |].
    rewrite Hlen in *. rewrite Q1, Q2, Q3, Q4, P3, P4. auto. }
  split; [|split].
  - (* the states, frame by frame *)
    destruct (Hprefix 15%nat) as (Q1 & Q2 & Q3 & Q4); [lia|].
    rewrite <- (firstn_skipn 15 silence) at 1.
    rewrite !states_of_run_app, P1, Q1.
    assert (Hlast : exists t, skipn 15 silence = [t] /\ quiet t).
    { pose proof (length_skipn 15 silence) as L. rewrite Hm in L.
      destruct (skipn 15 silence) as [|t [|? ?]] eqn:E; try discriminate.
      exists t. split; [reflexivity|].
      assert (Hin : In t (skipn 15 silence)) by (rewrite E; now left).
      rewrite Forall_forall in Hquiet. apply Hquiet.
      rewrite <- (firstn_skipn 15 silence). apply in_or_app. now right. }
    destruct Hlast as (t & Et & Ht). rewrite Et.
    cbn [states_of_run].
    set (s15 := run (firstn 15 silence) (run speech self)) in *.
    destruct (silence_frame t s15)
      as (S1 & _); [assumption | assumption | lia | lia |].
    rewrite Q3 in S1. change (Z.of_nat 15 + 1 =? 16) with true in S1.
    rewrite S1.
    rewrite app_assoc, <- repeat_app.
    do 2 f_equal. lia.
  - (* before the last silence frame *)
    intros k Hk. rewrite run_app.
    destruct (Hprefix k Hk) as (_ & Q2 & Q3 & _).
    repeat split; [assumption..|].
    rewrite Q3. unfold Qlt, silence_limit. cbn. lia.
  - (* on the last silence frame *)
    destruct (Hprefix 15%nat) as (_ & Q2 & Q3 & Q4); [lia|].
    pose proof (length_skipn 15 silence) as L. rewrite Hm in L.
    destruct (skipn 15 silence) as [|t [|? ?]] eqn:E; try discriminate.
    assert (Ht : quiet t).
    { rewrite Forall_forall in Hquiet. apply Hquiet.
      rewrite <- (firstn_skipn 15 silence), E. apply in_or_app.
      right. now left. }
    set (s15 := run (firstn 15 silence) (run speech self)) in *.
    assert (Hrun : run (speech ++ silence) self = next_frame t s15).
    { rewrite run_app. rewrite <- (firstn_skipn 15 silence) at 1.
      rewrite E, run_app. reflexivity. }
    rewrite Hrun.
    destruct (silence_frame t s15)
      as (S1 & S2 & S3); [assumption | assumption | lia | lia |].
    rewrite Q3 in S1, S2. change (Z.of_nat 15 + 1 =? 16) with true in S1.
    change (Z.of_nat 15 + 1) with 16 in S2.
    rewrite S1, S2, S3, Q4.
    repeat split.
    apply Qle_bool_iff.
    change (Z_ge_Q (Z.of_nat (length speech)) speaking_minimum = true).
    rewrite Z_ge_Q_speaking_minimum. apply Z.leb_le. lia.
Qed.

Lemma loud_tick_loud : loud loud_tick.
Proof. vm_compute. reflexivity. Qed.

Lemma quiet_tick_quiet : quiet quiet_tick.
Proof. vm_compute. reflexivity. Qed.

Lemma speech_then_silence_starts_reply_witness :
  states_of_run (repeat loud_tick 10 ++ repeat quiet_tick 16)
    (init system_message)
  = repeat State.waiting_for_silence 25 ++ [State.start_reply].
Proof.
  refine (proj1 (speech_then_silence_starts_reply (init system_message)
                   (repeat loud_tick 10) (repeat quiet_tick 16)
                   _ _ _ _ _ _ _)).
  - reflexivity.
  - reflexivity.
  - reflexivity.
  - repeat constructor; vm_compute; reflexivity.
  - repeat constructor; vm_compute; reflexivity.
  - vm_compute. discriminate.
  - reflexivity.
Defined.

(** ** The cap on the audio buffer *)

Ltac bytes_lia :=
  unfold frame_bytes, buffer_size_on_active_listening,
    buffer_size_when_not_listening, frame_length in *;
  lia.

Lemma append_frame_buffer_below_cap pcm self :
  Z.of_nat (length (recording_audio_buffer self ++ struct_pack pcm))
    <= cap self ->
  recording_audio_buffer (append_frame pcm self)
  = recording_audio_buffer self ++ struct_pack pcm.
Proof.
  intros H. unfold append_frame, drop_early_recording_audio_frames.
  cbn [recording_audio_buffer set_recording_audio_buffer state].
  fold (cap self).
  replace (_ >? cap self) with false; [reflexivity|].
  symmetry. rewrite Z.gtb_ltb. apply Z.ltb_ge. exact H.
Qed.

Lemma append_frame_buffer_above_cap pcm self :
  cap self
    < Z.of_nat (length (recording_audio_buffer self ++ struct_pack pcm)) ->
  recording_audio_buffer (append_frame pcm self)
  = slice_from frame_length (recording_audio_buffer self ++ struct_pack pcm).
Proof.
  intros H. unfold append_frame, drop_early_recording_audio_frames.
  cbn [recording_audio_buffer set_recording_audio_buffer state].
  fold (cap self).
  replace (_ >? cap self) with true; [reflexivity|].
  symmetry. rewrite Z.gtb_ltb. apply Z.ltb_lt. exact H.
Qed.

Lemma count_frame_quiet_buffer pcm self :
  is_silence pcm = true ->
  recording_audio_buffer (count_frame pcm self) = recording_audio_buffer self.
Proof.
  intros H. unfold count_frame. rewrite H. cbn zeta. break_if; reflexivity.
Qed.

Lemma flush_if_due_no_speech self :
  speaking_frame_count self = 0 -> flush_if_due self = self.
Proof. intros H. unfold flush_if_due. now rewrite H. Qed.

Lemma reply_if_due_no_speech self :
  speaking_frame_count self = 0 -> reply_if_due self = self.
Proof.
  intros H. unfold reply_if_due.
  rewrite H, Z_ge_Q_speaking_minimum, andb_false_r. reflexivity.
Qed.

Lemma standby_if_due_buffer self :
  recording_audio_buffer (standby_if_due self) = recording_audio_buffer self.
Proof. unfold standby_if_due. break_if; reflexivity. Qed.

(** A silent frame while listening with no speech counted so far: the
    frame is appended whole, and the 320th one in a row sends the machine
    to [waiting_for_wakeup] without touching the buffer. *)
Lemma quiet_idle_frame t self :
  state self = State.waiting_for_silence ->
  speaking_frame_count self = 0 ->
  quiet t -> framed t ->
  Z.of_nat (length (recording_audio_buffer self)) + frame_bytes
    <= buffer_size_on_active_listening ->
  let self' := next_frame t self in
  recording_audio_buffer self'
    = recording_audio_buffer self ++ struct_pack (recorder_read t)
  /\ speaking_frame_count self' = 0
  /\ (if 320 <=? silence_frame_count self + 1
      then state self' = State.waiting_for_wakeup
           /\ silence_frame_count self' = 0
      else state self' = State.waiting_for_silence
           /\ silence_frame_count self' = silence_frame_count self + 1).
Proof.
  intros Hst Hsp Hq Hf Hroom. cbn zeta.
  rewrite next_frame_dispatch, Hst. cbn zeta.
  set (self1 := append_frame (recorder_read t) self).
  assert (Hbuf : recording_audio_buffer self1
                 = recording_audio_buffer self ++ struct_pack (recorder_read t)).
  { apply append_frame_buffer_below_cap. unfold cap. rewrite Hst. cbn [State.eqb].
    rewrite length_app, Nat2Z.inj_add, (frame_struct_pack_length _ Hf).
    exact Hroom. }
  destruct (count_frame_quiet (recorder_read t) self1 Hq) as (C1 & C2 & C3).
  unfold self1 in C1, C2, C3. autorewrite with frame in C1, C2, C3.
  fold self1 in C1, C2, C3.
  rewrite Hsp in C3. cbn [Z.ltb Z.compare andb] in C3.
  assert (C3' : speaking_frame_count (count_frame (recorder_read t) self1) = 0)
    by (rewrite C3; now destruct (32 <=? _)).
  rewrite waiting_for_silence_parts.
  rewrite (flush_if_due_no_speech _ C3'), (reply_if_due_no_speech _ C3').
  rewrite standby_if_due_buffer, count_frame_quiet_buffer, Hbuf by exact Hq.
  split; [reflexivity|].
  pose proof (standby_if_due_frame (count_frame (recorder_read t) self1)) as S.
  cbn zeta in S. rewrite C2 in S.
  destruct (320 <=? silence_frame_count self + 1).
  - destruct S as (S1 & S2 & S3). auto.
  - rewrite S. rewrite C1, C2, C3', Hst. auto.
Qed.

(** Silent frames from a session with no speech counted, short of the
    320th in a row: every frame is appended whole. *)
Lemma quiet_idle_run ts : forall self,
  state self = State.waiting_for_silence ->
  speaking_frame_count self = 0 ->
  silence_frame_count self + Z.of_nat (length ts) < 320 ->
  Forall quiet ts -> Forall framed ts ->
  Z.of_nat (length (recording_audio_buffer self))
    + frame_bytes * Z.of_nat (length ts)
    <= buffer_size_on_active_listening ->
  let self' := run ts self in
  state self' = State.waiting_for_silence
  /\ speaking_frame_count self' = 0
  /\ silence_frame_count self' = silence_frame_count self + Z.of_nat (length ts)
  /\ Z.of_nat (length (recording_audio_buffer self'))
     = Z.of_nat (length (recording_audio_buffer self))
       + frame_bytes * Z.of_nat (length ts).
Proof.
  induction ts as [|t ts IH]; intros self Hst Hsp Hsi Hq Hf Hroom.
  - cbn. repeat split; auto; lia.
  - inversion Hq as [|? ? Hqt Hqts]; inversion Hf as [|? ? Hft Hfts]; subst.
    cbn [length] in Hsi, Hroom. cbn zeta.
    change (run (t :: ts) self) with (run ts (next_frame t self)).
    destruct (quiet_idle_frame t self Hst Hsp Hqt Hft) as (B & Sp & Si).
    { cbn [length] in Hroom. bytes_lia. }
    replace (320 <=? silence_frame_count self + 1) with false in Si
      by (symmetry; apply Z.leb_gt; lia).
    destruct Si as (St & Si).
    assert (Hlen : Z.of_nat (length (recording_audio_buffer (next_frame t self)))
                   = Z.of_nat (length (recording_audio_buffer self)) + frame_bytes).
    { rewrite B, length_app, Nat2Z.inj_add.
      now rewrite (frame_struct_pack_length _ Hft). }
    destruct (IH (next_frame t self)) as (I1 & I2 & I3 & I4);
      [assumption | assumption | lia | assumption | assumption
      | rewrite Hlen; bytes_lia |].
    rewrite I1, I2, I3, I4, Si, Hlen. cbn [length].
    repeat split; auto; bytes_lia.
Qed.

Lemma idle_session_standby :
  state idle_session = State.waiting_for_wakeup
  /\ Z.of_nat (length (recording_audio_buffer idle_session))
     = buffer_size_when_not_listening.
Proof.
  unfold idle_session.
  change 320%nat with (319 + 1)%nat. rewrite repeat_app, run_app.
  change (repeat quiet_tick 1) with [quiet_tick].
  set (ts := repeat quiet_tick 319).
  assert (Hlen : length ts = 319%nat) by apply repeat_length.
  assert (Hq : Forall quiet ts).
  { apply Forall_forall. intros t Ht. apply repeat_spec in Ht. subst.
    exact quiet_tick_quiet. }
  assert (Hf : Forall framed ts).
  { apply Forall_forall. intros t Ht. apply repeat_spec in Ht. subst.
    reflexivity. }
  destruct (quiet_idle_run ts (init system_message)) as (I1 & I2 & I3 & I4);
    [reflexivity | reflexivity
    | rewrite Hlen; change (silence_frame_count (init system_message)) with 0;
      lia
    | assumption | assumption
    | rewrite Hlen;
      change (recording_audio_buffer (init system_message)) with (@nil byte);
      cbn [length]; bytes_lia |].
  rewrite Hlen in I3, I4.
  change (run [quiet_tick] ?s) with (next_frame quiet_tick s).
  destruct (quiet_idle_frame quiet_tick (run ts (init system_message)))
    as (B & _ & Si);
    [assumption | assumption | exact quiet_tick_quiet | reflexivity
    | rewrite I4;
      change (recording_audio_buffer (init system_message)) with (@nil byte);
      cbn [length]; bytes_lia |].
  rewrite I3 in Si.
  change (silence_frame_count (init system_message)) with 0 in Si.
  change (320 <=? 0 + Z.of_nat 319 + 1) with true in Si.
  destruct Si as (St & _).
  split; [exact St|].
  rewrite B, length_app, Nat2Z.inj_add, I4.
  rewrite (frame_struct_pack_length (recorder_read quiet_tick)) by reflexivity.
  change (recording_audio_buffer (init system_message)) with (@nil byte).
  cbn [length]. bytes_lia.
Qed.

(** One more frame in [waiting_for_wakeup] with the buffer at its cap. *)
Lemma frame_at_cap t self :
  state self = State.waiting_for_wakeup ->
  Z.of_nat (length (recording_audio_buffer self))
    = buffer_size_when_not_listening ->
  framed t ->
  let appended :=
    set_recording_audio_buffer
      (recording_audio_buffer self ++ struct_pack (recorder_read t)) self in
  let capped := drop_early_recording_audio_frames appended in
  cap capped = buffer_size_when_not_listening
  /\ Z.of_nat (length (recording_audio_buffer capped))
     = buffer_size_when_not_listening + frame_length
  /\ dropped_bytes appended = frame_length
  /\ (porcupine_process t < 0 ->
      recording_audio_buffer (next_frame t self)
      = recording_audio_buffer capped).
Proof.
  intros Hst Hlen Hf. cbn zeta.
  set (appended := set_recording_audio_buffer _ self).
  assert (Happ : Z.of_nat (length (recording_audio_buffer appended))
                 = buffer_size_when_not_listening + frame_bytes).
  { unfold appended. cbn [recording_audio_buffer set_recording_audio_buffer].
    rewrite length_app, Nat2Z.inj_add, Hlen.
    now rewrite (frame_struct_pack_length _ Hf). }
  assert (Hcapped : recording_audio_buffer
                      (drop_early_recording_audio_frames appended)
                    = slice_from frame_length (recording_audio_buffer appended)).
  { apply (append_frame_buffer_above_cap (recorder_read t) self).
    unfold cap. rewrite Hst. cbn [State.eqb].
    fold appended in Happ |- *.
    change (recording_audio_buffer self ++ struct_pack (recorder_read t))
      with (recording_audio_buffer appended).
    rewrite Happ. bytes_lia. }
  assert (Hkept : Z.of_nat (length (recording_audio_buffer
                      (drop_early_recording_audio_frames appended)))
                  = buffer_size_when_not_listening + frame_length).
  { rewrite Hcapped, slice_tail_length by (unfold frame_length; lia).
    rewrite Happ. bytes_lia. }
  repeat split.
  - unfold cap.
    destruct (drop_early_frame appended) as (E & _). cbn zeta in E.
    rewrite E. unfold appended. cbn [state set_recording_audio_buffer].
    now rewrite Hst.
  - exact Hkept.
  - unfold dropped_bytes. rewrite Hkept, Happ. bytes_lia.
  - intros Hno. rewrite next_frame_dispatch, Hst. cbn zeta.
    unfold waiting_for_wakeup. cbn zeta.
    replace (porcupine_process t >=? 0) with false
      by (symmetry; rewrite Z.geb_leb; apply Z.leb_gt; lia).
    reflexivity.
Qed.

(** C1, at a session the code reaches.  After 320 silent frames the
    machine waits for the wake word with 327680 bytes buffered, which is
    [buffer_size_when_not_listening].  On the next frame 1024 bytes are
    appended and [drop_early_recording_audio_frames] removes 512 of them:
    the buffer then holds 328192 bytes, more than the cap, and the 512
    bytes removed are half of one frame's 1024 bytes. *)
Theorem cap_exceeded_after_standby :
  let appended :=
    set_recording_audio_buffer
      (recording_audio_buffer idle_session
         ++ struct_pack (recorder_read quiet_tick)) idle_session in
  let capped := drop_early_recording_audio_frames appended in
  state idle_session = State.waiting_for_wakeup
  /\ Z.of_nat (length (recording_audio_buffer idle_session)) = 327680
  /\ cap capped = 327680
  /\ Z.of_nat (length (recording_audio_buffer capped)) = 328192
  /\ dropped_bytes appended = 512
  /\ frame_bytes = 1024
  /\ dropped_bytes appended mod frame_bytes = 512
  /\ recording_audio_buffer (next_frame quiet_tick idle_session)
     = recording_audio_buffer capped.
Proof.
  destruct idle_session_standby as (Hst & Hlen).
  destruct (frame_at_cap quiet_tick idle_session Hst Hlen)
    as (F1 & F2 & F3 & F4); [reflexivity|].
  cbn zeta. rewrite F1, F2, F3.
  split; [exact Hst|]. split; [exact Hlen|].
  split; [reflexivity|]. split; [reflexivity|]. split; [reflexivity|].
  split; [reflexivity|]. split; [reflexivity|].
  apply F4. reflexivity.
Qed.

(** ** Replying: interruption *)

Lemma replying_loop_parts t self d :
  interruption_detection self = Some d ->
  replying_loop t self =
  let self := handle_event (chat_gpt_get t) self in
  if is_done t then
    reset State.waiting_for_silence
      (set_speaking_frame_count 0
         (set_recording_audio_buffer
            (slice_from (- frame_length * 2) (recording_audio_buffer self))
            self))
  else if check_for_interruption t then
    reset State.waiting_for_silence
      (set_recording_audio_buffer
         (slice_from (- frame_length * 32) (recording_audio_buffer self))
         (call chat_gpt_restart self))
  else self.
Proof.
  intros H. unfold replying_loop. rewrite H.
  destruct (chat_gpt_get t) as [[ | | | | ]|]; reflexivity.
Qed.

Lemma handle_event_frame e self :
  let self' := handle_event e self in
  state self' = state self
  /\ recording_audio_buffer self' = recording_audio_buffer self
  /\ interruption_detection self' = interruption_detection self
  /\ conversation self' = conversation self ++ polled_messages e.
Proof.
  destruct e as [[ | | | | ]|]; cbn; rewrite ?app_nil_r; auto.
Qed.

(** C3, as the code has it.  In state [replying], on a frame for which
    [check_for_interruption] answers true (so the detector is present and
    [is_done] answered false), the step appends to the conversation only
    what the reply pipeline delivered on that same poll (an assistant
    message if the polled event is one, nothing otherwise); the audio
    buffer afterwards is a suffix of the buffer as it stood after the frame
    was appended, no longer than 32 frames, everything older being gone;
    the reply pipeline is restarted, the detector dropped and the state
    becomes [waiting_for_silence]. *)
Theorem interruption_step (t : Tick) (self : AudioRecording) :
  state self = State.replying ->
  interruption_detection self <> None ->
  is_done t = false ->
  check_for_interruption t = true ->
  let self' := next_frame t self in
  state self' = State.waiting_for_silence
  /\ conversation self'
     = conversation self ++ polled_messages (chat_gpt_get t)
  /\ (exists older,
        recording_audio_buffer (append_frame (recorder_read t) self)
        = older ++ recording_audio_buffer self')
  /\ Z.of_nat (length (recording_audio_buffer self')) <= 32 * frame_bytes
  /\ In chat_gpt_restart (calls self')
  /\ interruption_detection self' = None.
Proof.
  intros Hst Hdet Hdone Hint. cbn zeta.
  rewrite next_frame_dispatch, Hst. cbn zeta.
  set (self1 := append_frame (recorder_read t) self).
  destruct (interruption_detection self1) as [d|] eqn:Hd1;
    [|unfold self1 in Hd1; autorewrite with frame in Hd1; contradiction].
  rewrite (replying_loop_parts t self1 d Hd1), Hdone, Hint. cbn zeta.
  destruct (handle_event_frame (chat_gpt_get t) self1) as (E1 & E2 & E3 & E4).
  set (self2 := handle_event (chat_gpt_get t) self1) in *.
  cbn [state conversation recording_audio_buffer interruption_detection calls
       reset set_state set_silence_frame_count set_interruption_detection
       set_recording_audio_buffer call].
  rewrite E2, E4. unfold self1 at 1. autorewrite with frame.
  split; [reflexivity|]. split; [reflexivity|].
  split; [apply slice_from_suffix|].
  split.
  - change (- frame_length * 32) with (- (frame_length * 32)).
    rewrite slice_last_length by reflexivity. bytes_lia.
  - split; [|reflexivity].
    rewrite !in_app_iff. left. left. right. now left.
Qed.

Lemma interruption_step_witness :
  state (next_frame interrupt_tick mid_reply_session)
  = State.waiting_for_silence.
Proof.
  refine (proj1 (interruption_step interrupt_tick mid_reply_session
                   _ _ _ _)).
  - vm_compute. reflexivity.
  - vm_compute. discriminate.
  - reflexivity.
  - reflexivity.
Defined.

(** C3 as stated fails at a session the code reaches: interrupted on the
    poll that delivers the assistant's message, the step does append that
    message; and of the 42496 bytes buffered it keeps 16384, which is 16
    frames of 1024 bytes, not 32. *)
Lemma interruption_step_counterexample :
  state mid_reply_session = State.replying
  /\ interruption_detection mid_reply_session = Some InterruptionDetection_new
  /\ is_done interrupt_tick = false
  /\ check_for_interruption interrupt_tick = true
  /\ conversation (next_frame interrupt_tick mid_reply_session)
     = conversation mid_reply_session ++ [assistant_said]
  /\ Z.of_nat (length (recording_audio_buffer
                         (append_frame (recorder_read interrupt_tick)
                            mid_reply_session))) = 42496
  /\ Z.of_nat (length (recording_audio_buffer
                         (next_frame interrupt_tick mid_reply_session)))
     = 16384
  /\ 32 * frame_bytes = 32768.
Proof.
  vm_compute. repeat split.
Qed.

(** ** Entering and leaving [replying] *)

(** In state [start_reply] with a transcript that is not blank, the step
    appends the user message, cuts the buffer with the one-frame trim
    [buffer[-frame_length:]], passes the conversation to the reply pipeline
    and enters [replying]. *)
Lemma start_reply_dispatch_step (t : Tick) (self : AudioRecording) :
  state self = State.start_reply ->
  forallb py_isspace (transcribe_and_stop t) = false ->
  let self' := next_frame t self in
  let before := recording_audio_buffer (append_frame (recorder_read t) self) in
  let user_message := {| role := "user"; content := transcribe_and_stop t |} in
  state self' = State.replying
  /\ recording_audio_buffer self' = slice_from (- frame_length) before
  /\ (exists older, before = older ++ recording_audio_buffer self')
  /\ Z.of_nat (length (recording_audio_buffer self'))
     = Z.min frame_length (Z.of_nat (length before))
  /\ Z.of_nat (length (recording_audio_buffer self')) <= frame_bytes
  /\ conversation self' = conversation self ++ [user_message]
  /\ In (chat_gpt_reply (conversation self ++ [user_message])) (calls self').
Proof.
  intros Hst Hws. cbn zeta.
  rewrite next_frame_dispatch, Hst. cbn zeta.
  unfold start_reply_step. cbn zeta.
  destruct (strip (transcribe_and_stop t)) as [|c rest] eqn:Hstrip.
  { apply strip_nil_iff in Hstrip. congruence. }
  cbn [length Nat.eqb].
  cbn [state conversation recording_audio_buffer interruption_detection calls
       reset set_state set_silence_frame_count set_interruption_detection
       set_recording_audio_buffer set_conversation call].
  autorewrite with frame.
  split; [reflexivity|]. split; [reflexivity|].
  split; [apply slice_from_suffix|].
  rewrite slice_last_length by reflexivity.
  split; [reflexivity|]. split; [bytes_lia|]. split; [reflexivity|].
  rewrite !in_app_iff. left. left. right. now left.
Qed.

(** The two-frame trim [buffer[-frame_length * 2:]] is the one applied on
    leaving [replying] when the reply has finished. *)
Lemma natural_completion_step (t : Tick) (self : AudioRecording) :
  state self = State.replying ->
  interruption_detection self <> None ->
  is_done t = true ->
  let self' := next_frame t self in
  state self' = State.waiting_for_silence
  /\ recording_audio_buffer self'
     = slice_from (- frame_length * 2)
         (recording_audio_buffer (append_frame (recorder_read t) self))
  /\ silence_frame_count self' = 0
  /\ speaking_frame_count self' = 0
  /\ interruption_detection self' = None
  /\ conversation self'
     = conversation self ++ polled_messages (chat_gpt_get t)
  /\ calls self'
     = calls (handle_event (chat_gpt_get t) self)
         ++ [recorder_start; transcriber_restart].
Proof.
  intros Hst Hdet Hdone. cbn zeta.
  rewrite next_frame_dispatch, Hst. cbn zeta.
  set (self1 := append_frame (recorder_read t) self).
  destruct (interruption_detection self1) as [d|] eqn:Hd1;
    [|unfold self1 in Hd1; autorewrite with frame in Hd1; contradiction].
  rewrite (replying_loop_parts t self1 d Hd1), Hdone. cbn zeta.
  destruct (handle_event_frame (chat_gpt_get t) self1) as (E1 & E2 & E3 & E4).
  cbn [state conversation recording_audio_buffer interruption_detection calls
       reset set_state set_silence_frame_count set_interruption_detection
       set_recording_audio_buffer set_speaking_frame_count
       silence_frame_count speaking_frame_count call].
  rewrite E2, E4.
  repeat split.
  - unfold self1. now autorewrite with frame.
  - rewrite <- app_assoc. f_equal.
    unfold self1. destruct (chat_gpt_get t) as [[ | | | | ]|]; cbn;
      now autorewrite with frame.
Qed.

(** C8, as the code has it.  On the step that enters [replying] (state
    [start_reply], transcript not blank) the buffer is cut by the one-frame
    trim [buffer[-frame_length:]] before the conversation is passed to the
    reply pipeline: what the session enters [replying] with is a suffix of
    the buffer no longer than one frame, not its last two frames.  The
    two-frame trim [buffer[-frame_length * 2:]] is the one applied on the
    step that leaves [replying] because the reply has finished: what is
    kept there is a suffix of the buffer no longer than two frames. *)
Theorem entering_replying_trim
  (t : Tick) (self : AudioRecording)
  (t_done : Tick) (replying_self : AudioRecording) :
  state self = State.start_reply ->
  forallb py_isspace (transcribe_and_stop t) = false ->
  state replying_self = State.replying ->
  interruption_detection replying_self <> None ->
  is_done t_done = true ->
  let entered := next_frame t self in
  let before := recording_audio_buffer (append_frame (recorder_read t) self) in
  let user_message := {| role := "user"; content := transcribe_and_stop t |} in
  let finished := next_frame t_done replying_self in
  let before_exit :=
    recording_audio_buffer
      (append_frame (recorder_read t_done) replying_self) in
  (state entered = State.replying
   /\ recording_audio_buffer entered = slice_from (- frame_length) before
   /\ (exists older, before = older ++ recording_audio_buffer entered)
   /\ Z.of_nat (length (recording_audio_buffer entered))
      = Z.min frame_length (Z.of_nat (length before))
   /\ Z.of_nat (length (recording_audio_buffer entered)) <= frame_bytes
   /\ conversation entered = conversation self ++ [user_message]
   /\ In (chat_gpt_reply (conversation self ++ [user_message]))
         (calls entered))
  /\ (state finished = State.waiting_for_silence
      /\ recording_audio_buffer finished
         = slice_from (- frame_length * 2) before_exit
      /\ (exists older,
            before_exit = older ++ recording_audio_buffer finished)
      /\ Z.of_nat (length (recording_audio_buffer finished))
         = Z.min (frame_length * 2) (Z.of_nat (length before_exit))
      /\ Z.of_nat (length (recording_audio_buffer finished))
         <= 2 * frame_bytes).
Proof.
  intros Hst Hws Hrep Hdet Hdone. cbn zeta.
  split; [exact (start_reply_dispatch_step t self Hst Hws)|].
  destruct (natural_completion_step t_done replying_self Hrep Hdet Hdone)
    as (N1 & N2 & _).
  rewrite N1, N2.
  split; [reflexivity|]. split; [reflexivity|].
  split; [apply slice_from_suffix|].
  change (- frame_length * 2) with (- (frame_length * 2)).
  rewrite slice_last_length by reflexivity.
  split; [reflexivity | bytes_lia].
Qed.

Lemma entering_replying_trim_witness :
  state (next_frame answer_tick heard_session) = State.replying.
Proof.
  refine (proj1 (proj1 (entering_replying_trim answer_tick heard_session
                          done_tick replying_session _ _ _ _ _))).
  - vm_compute. reflexivity.
  - reflexivity.
  - vm_compute. reflexivity.
  - vm_compute. discriminate.
  - reflexivity.
Defined.

(** C8 as stated fails at a session the code reaches: of the 27648 bytes
    buffered when the reply is dispatched, the session enters [replying]
    with 512, which is neither two frames of 1024 bytes nor twice
    [frame_length]. *)
Lemma entering_replying_counterexample :
  state heard_session = State.start_reply
  /\ forallb py_isspace (transcribe_and_stop answer_tick) = false
  /\ state (next_frame answer_tick heard_session) = State.replying
  /\ Z.of_nat (length (recording_audio_buffer
                         (append_frame (recorder_read answer_tick)
                            heard_session))) = 27648
  /\ Z.of_nat (length (recording_audio_buffer
                         (next_frame answer_tick heard_session))) = 512
  /\ 2 * frame_bytes = 2048
  /\ 2 * frame_length = 1024.
Proof.
  vm_compute. repeat split.
Qed.

(** ** Replying: natural completion and the detector's [stop()] *)

Lemma stops_app cs1 cs2 : stops (cs1 ++ cs2) = (stops cs1 + stops cs2)%nat.
Proof. unfold stops. now rewrite filter_app, length_app. Qed.

Lemma ended_polls_app ts1 ts2 :
  ended_polls (ts1 ++ ts2) = (ended_polls ts1 + ended_polls ts2)%nat.
Proof. unfold ended_polls. now rewrite map_app, list_sum_app. Qed.

Lemma handle_event_stops t self :
  stops (calls (handle_event (chat_gpt_get t) self))
  = (stops (calls self) + ended t)%nat.
Proof.
  unfold ended.
  destruct (chat_gpt_get t) as [[ | | | | ]|]; cbn [handle_event calls call
    set_conversation set_speaking_frame_count set_silence_frame_count];
    rewrite ?stops_app;
    cbn [stops filter is_detector_stop length]; lia.
Qed.

(** A frame while the reply plays on: the machine stays in [replying] with
    its detector, and [stop()] is called exactly if [reply_audio_ended] was
    polled. *)
Lemma playing_frame t self :
  state self = State.replying ->
  interruption_detection self <> None ->
  playing t ->
  let self' := next_frame t self in
  state self' = State.replying
  /\ interruption_detection self' <> None
  /\ stops (calls self') = (stops (calls self) + ended t)%nat.
Proof.
  intros Hst Hdet [Hdone Hint]. cbn zeta.
  rewrite next_frame_dispatch, Hst. cbn zeta.
  set (self1 := append_frame (recorder_read t) self).
  destruct (interruption_detection self1) as [d|] eqn:Hd1;
    [|unfold self1 in Hd1; autorewrite with frame in Hd1; contradiction].
  rewrite (replying_loop_parts t self1 d Hd1), Hdone, Hint. cbn zeta.
  destruct (handle_event_frame (chat_gpt_get t) self1) as (E1 & _ & E3 & _).
  rewrite E1, E3, Hd1, handle_event_stops.
  unfold self1. autorewrite with frame.
  repeat split; [assumption | discriminate].
Qed.

Lemma playing_run ts : forall self,
  state self = State.replying ->
  interruption_detection self <> None ->
  Forall playing ts ->
  states_of_run ts self = repeat State.replying (length ts)
  /\ state (run ts self) = State.replying
  /\ interruption_detection (run ts self) <> None
  /\ stops (calls (run ts self)) = (stops (calls self) + ended_polls ts)%nat.
Proof.
  induction ts as [|t ts IH]; intros self Hst Hdet Hall.
  - cbn. repeat split; auto.
  - inversion Hall as [|? ? Ht Hts]; subst.
    destruct (playing_frame t self Hst Hdet Ht) as (S1 & S2 & S3).
    destruct (IH (next_frame t self) S1 S2 Hts) as (I1 & I2 & I3 & I4).
    change (run (t :: ts) self) with (run ts (next_frame t self)).
    cbn [states_of_run length repeat]. rewrite I1, S1, I4, S3.
    repeat split; auto.
    change (ended_polls (t :: ts)) with (ended t + ended_polls ts)%nat. lia.
Qed.

(** C7, as the code has it.  Over a stretch of [replying] that ends on a
    frame where [is_done()] answers true, with no interruption before it:
    that last step sets the state to [waiting_for_silence] and drops the
    detector, calling [stop()] only if the poll of that same step delivers
    [reply_audio_ended]; over the whole stretch [stop()] is called once for
    every [reply_audio_ended] polled, so exactly once exactly when one such
    event was polled. *)
Theorem natural_completion_stops
  (self : AudioRecording) (waiting : list Tick) (last : Tick) :
  state self = State.replying ->
  interruption_detection self <> None ->
  Forall playing waiting ->
  is_done last = true ->
  let self' := run (waiting ++ [last]) self in
  states_of_run (waiting ++ [last]) self
    = repeat State.replying (length waiting) ++ [State.waiting_for_silence]
  /\ interruption_detection self' = None
  /\ stops (calls self') = (stops (calls (run waiting self)) + ended last)%nat
  /\ stops (calls self')
     = (stops (calls self) + ended_polls (waiting ++ [last]))%nat
  /\ (stops (calls self') = (stops (calls self) + 1)%nat
      <-> ended_polls (waiting ++ [last]) = 1%nat).
Proof.
  intros Hst Hdet Hplay Hdone. cbn zeta.
  destruct (playing_run waiting self Hst Hdet Hplay) as (P1 & P2 & P3 & P4).
  rewrite states_of_run_app, run_app, P1.
  change (run [last] ?s) with (next_frame last s).
  cbn [states_of_run].
  destruct (natural_completion_step last (run waiting self) P2 P3 Hdone)
    as (N1 & _ & _ & _ & N5 & _ & N7).
  rewrite N1, N5, N7, stops_app, handle_event_stops, P4, ended_polls_app.
  change (ended_polls [last]) with (ended last + 0)%nat.
  cbn [stops filter length is_detector_stop].
  repeat split; lia.
Qed.

Lemma natural_completion_stops_witness :
  states_of_run (repeat quiet_tick 3 ++ [done_tick]) replying_session
  = repeat State.replying 3 ++ [State.waiting_for_silence].
Proof.
  refine (proj1 (natural_completion_stops replying_session
                   (repeat quiet_tick 3) done_tick _ _ _ _)).
  - vm_compute. reflexivity.
  - vm_compute. discriminate.
  - repeat constructor.
  - reflexivity.
Defined.

(** C7 as stated fails at a session the code reaches: when [is_done()]
    answers true on the first frame of the reply and nothing was polled,
    the state becomes [waiting_for_silence] and [stop()] has not been
    called at all. *)
Lemma natural_completion_counterexample :
  state replying_session = State.replying
  /\ interruption_detection replying_session = Some InterruptionDetection_new
  /\ stops (calls replying_session) = 0%nat
  /\ is_done done_tick = true
  /\ state (next_frame done_tick replying_session) = State.waiting_for_silence
  /\ interruption_detection (next_frame done_tick replying_session) = None
  /\ stops (calls (next_frame done_tick replying_session)) = 0%nat.
Proof.
  vm_compute. repeat split.
Qed.

(** ** The counters on leaving active listening *)

Lemma count_frame_state pcm self : state (count_frame pcm self) = state self.
Proof.
  destruct (is_silence pcm) eqn:E.
  - apply (count_frame_quiet pcm self E).
  - apply (count_frame_loud pcm self E).
Qed.

(** Leaving [waiting_for_silence]: for standby both counters are zeroed;
    for [start_reply] they are left at the values that met the thresholds. *)
Lemma leaving_listening (t : Tick) (self : AudioRecording) :
  state self = State.waiting_for_silence ->
  let self' := next_frame t self in
  (state self' = State.waiting_for_wakeup ->
   silence_frame_count self' = 0 /\ speaking_frame_count self' = 0)
  /\ (state self' = State.start_reply ->
      16 <= silence_frame_count self' /\ 10 <= speaking_frame_count self').
Proof.
  intros Hst. cbn zeta. rewrite next_frame_dispatch, Hst. cbn zeta.
  set (self1 := append_frame (recorder_read t) self).
  pose proof (waiting_for_silence_counts (recorder_read t) self1) as W.
  cbn zeta in W. rewrite count_frame_state in W.
  assert (Hst1 : state self1 = State.waiting_for_silence)
    by (unfold self1; now autorewrite with frame).
  rewrite Hst1 in W.
  destruct (320 <=? _).
  - destruct W as (W1 & W2 & W3). rewrite W1, W2, W3.
    split; [auto | discriminate].
  - destruct W as (W1 & W2 & W3). rewrite W1, W2, W3.
    destruct (16 <=? _) eqn:E1; cbn [andb];
      [destruct (10 <=? _) eqn:E2|]; split; try discriminate.
    intros _. apply Z.leb_le in E1, E2. auto.
Qed.

(** What each exit does to the counters: going to standby and the natural
    end of a reply zero both; entering [start_reply] leaves both at the
    values that met the thresholds; the interruption exit zeroes
    [silence_frame_count] and leaves [speaking_frame_count] as the polled
    event left it. *)
Lemma counters_on_leaving (t : Tick) (self : AudioRecording) :
  let self' := next_frame t self in
  (state self = State.waiting_for_silence ->
   state self' = State.waiting_for_wakeup ->
   silence_frame_count self' = 0 /\ speaking_frame_count self' = 0)
  /\ (state self = State.waiting_for_silence ->
      state self' = State.start_reply ->
      (silence_limit <= inject_Z (silence_frame_count self'))%Q
      /\ (speaking_minimum <= inject_Z (speaking_frame_count self'))%Q)
  /\ (state self = State.replying ->
      interruption_detection self <> None ->
      is_done t = true ->
      state self' = State.waiting_for_silence
      /\ silence_frame_count self' = 0 /\ speaking_frame_count self' = 0)
  /\ (state self = State.replying ->
      interruption_detection self <> None ->
      is_done t = false ->
      check_for_interruption t = true ->
      state self' = State.waiting_for_silence
      /\ silence_frame_count self' = 0
      /\ speaking_frame_count self'
         = match chat_gpt_get t with
           | Some (reply_audio_started _) => 0
           | _ => speaking_frame_count self
           end).
Proof.
  cbn zeta. split; [|split; [|split]].
  - intros Hst Hto. now apply (leaving_listening t self Hst).
  - intros Hst Hto.
    destruct (proj2 (leaving_listening t self Hst) Hto) as [H16 H10].
    split; apply Qle_bool_iff.
    + change (Z_ge_Q (silence_frame_count (next_frame t self)) silence_limit
              = true).
      rewrite Z_ge_Q_silence_limit. now apply Z.leb_le.
    + change (Z_ge_Q (speaking_frame_count (next_frame t self))
                speaking_minimum = true).
      rewrite Z_ge_Q_speaking_minimum. now apply Z.leb_le.
  - intros Hst Hdet Hdone.
    destruct (natural_completion_step t self Hst Hdet Hdone)
      as (N1 & _ & N3 & N4 & _). auto.
  - intros Hst Hdet Hdone Hint.
    rewrite next_frame_dispatch, Hst. cbn zeta.
    set (self1 := append_frame (recorder_read t) self).
    destruct (interruption_detection self1) as [d|] eqn:Hd1;
      [|unfold self1 in Hd1; autorewrite with frame in Hd1; contradiction].
    rewrite (replying_loop_parts t self1 d Hd1), Hdone, Hint. cbn zeta.
    cbn [state reset set_state set_silence_frame_count
         set_interruption_detection set_recording_audio_buffer call
         silence_frame_count speaking_frame_count].
    split; [reflexivity|]. split; [reflexivity|].
    unfold self1.
    destruct (chat_gpt_get t) as [[ | | | | ]|]; cbn;
      now autorewrite with frame.
Qed.

(** With ten or more speech frames counted, silence frames and blank
    transcripts take the machine round [waiting_for_silence] and
    [start_reply] for ever: [speaking_frame_count] is never zeroed, so
    [silence_frame_count] never gets past 16 and standby is out of reach. *)
Lemma silent_loop_frame t self :
  quiet t ->
  forallb py_isspace (transcribe_and_stop t) = true ->
  10 <= speaking_frame_count self ->
  (state self = State.waiting_for_silence
   /\ 0 <= silence_frame_count self < 16)
  \/ state self = State.start_reply ->
  10 <= speaking_frame_count (next_frame t self)
  /\ ((state (next_frame t self) = State.waiting_for_silence
       /\ 0 <= silence_frame_count (next_frame t self) < 16)
      \/ state (next_frame t self) = State.start_reply).
Proof.
  intros Hq Hblank Hsp [[Hst Hsi]|Hst].
  - destruct (silence_frame t self Hst Hq Hsp Hsi) as (S1 & S2 & S3).
    rewrite S1, S2, S3. split; [exact Hsp|].
    destruct (Z.eqb_spec (silence_frame_count self + 1) 16);
      [now right | left; split; [reflexivity | lia]].
  - rewrite next_frame_dispatch, Hst. cbn zeta.
    unfold start_reply_step. cbn zeta.
    apply strip_nil_iff in Hblank. rewrite Hblank. cbn [length Nat.eqb].
    cbn [state silence_frame_count speaking_frame_count reset set_state
         set_silence_frame_count set_interruption_detection call].
    autorewrite with frame. split; [exact Hsp|]. left. split; [reflexivity|lia].
Qed.

Lemma silent_loop_run ts : forall self,
  Forall (fun t => quiet t
                   /\ forallb py_isspace (transcribe_and_stop t) = true) ts ->
  10 <= speaking_frame_count self ->
  (state self = State.waiting_for_silence
   /\ 0 <= silence_frame_count self < 16)
  \/ state self = State.start_reply ->
  existsb (State.eqb State.waiting_for_wakeup) (states_of_run ts self) = false.
Proof.
  induction ts as [|t ts IH]; intros self Hall Hsp Hin; [reflexivity|].
  inversion Hall as [|? ? [Hq Hb] Hts]; subst.
  destruct (silent_loop_frame t self Hq Hb Hsp Hin) as (Hsp' & Hin').
  cbn [states_of_run existsb]. rewrite (IH _ Hts Hsp' Hin'), orb_false_r.
  destruct Hin' as [[E _]|E]; now rewrite E.
Qed.

(** C6, on the code at a session it reaches.  Ten speech frames and
    sixteen silence frames take the machine into [start_reply] with the
    counters still at 16 and 10.  A blank transcript then sends it back to
    [waiting_for_silence] with [silence_frame_count] at zero and
    [speaking_frame_count] still at 10, so sixteen more silence frames,
    with no speech at all, enter [start_reply] again; however many silence
    frames follow, the machine never reaches [waiting_for_wakeup].  An
    interruption of a reply likewise leaves [speaking_frame_count] at
    10. *)
Theorem counters_kept_on_leaving_listening :
  let entered := next_frame quiet_tick listening_session in
  let back := next_frame blank_transcript_tick entered in
  state listening_session = State.waiting_for_silence
  /\ state entered = State.start_reply
  /\ silence_frame_count entered = 16
  /\ speaking_frame_count entered = 10
  /\ state back = State.waiting_for_silence
  /\ silence_frame_count back = 0
  /\ speaking_frame_count back = 10
  /\ states_of_run (repeat quiet_tick 16) back
     = repeat State.waiting_for_silence 15 ++ [State.start_reply]
  /\ (forall n,
        existsb (State.eqb State.waiting_for_wakeup)
          (states_of_run (repeat quiet_tick n) back) = false)
  /\ state replying_session = State.replying
  /\ check_for_interruption interrupt_tick = true
  /\ state (next_frame interrupt_tick replying_session)
     = State.waiting_for_silence
  /\ speaking_frame_count (next_frame interrupt_tick replying_session) = 10.
Proof.
  cbn zeta.
  assert (Hback :
    state (next_frame blank_transcript_tick
             (next_frame quiet_tick listening_session))
    = State.waiting_for_silence
    /\ silence_frame_count (next_frame blank_transcript_tick
                              (next_frame quiet_tick listening_session)) = 0
    /\ speaking_frame_count (next_frame blank_transcript_tick
                               (next_frame quiet_tick listening_session)) = 10)
    by (vm_compute; repeat split).
  destruct Hback as (B1 & B2 & B3).
  do 4 (split; [vm_compute; reflexivity|]).
  split; [exact B1|]. split; [exact B2|]. split; [exact B3|].
  split; [vm_compute; reflexivity|].
  split.
  - intros n. apply silent_loop_run.
    + apply Forall_forall. intros t Ht. apply repeat_spec in Ht. subst.
      split; [exact quiet_tick_quiet | reflexivity].
    + rewrite B3. lia.
    + left. rewrite B1, B2. split; [reflexivity | lia].
  - do 3 (split; [vm_compute; reflexivity|]). vm_compute. reflexivity.
Qed.

(** ** Voice activity: the threshold on the root-mean-square *)

Lemma sum_squares_nonneg pcm : 0 <= sum_squares pcm.
Proof.
  induction pcm as [|x pcm IH]; cbn [sum_squares fold_right]; [lia|].
  fold (sum_squares pcm). nia.
Qed.

Lemma length_pos_of_nat {A : Type} (l : list A) :
  l <> [] -> Z.pos (Pos.of_nat (length l)) = Z.of_nat (length l).
Proof.
  intros H. destruct l as [|a l]; [contradiction|].
  rewrite <- positive_nat_Z, Nat2Pos.id; [reflexivity|discriminate].
Qed.

(** The Boolean test of [is_silence], in integers. *)
Lemma is_silence_sum_squares pcm :
  pcm <> [] ->
  is_silence pcm = true
  <-> sum_squares pcm
      < silence_threshold * silence_threshold * Z.of_nat (length pcm).
Proof.
  intros H. unfold is_silence, volume_ltb, calculate_volume.
  cbn [mean_square]. change (0 <? silence_threshold) with true.
  cbn [andb]. rewrite negb_true_iff, <- not_true_iff_false, Qle_bool_iff.
  unfold Qle. cbn [Qnum Qden inject_Z]. rewrite (length_pos_of_nat pcm H).
  lia.
Qed.

Lemma mean_below (s n k : Z) :
  0 < n -> (IZR s / IZR n < IZR k)%R <-> s < k * n.
Proof.
  intros Hn. assert (Hpos : (0 < IZR n)%R) by (apply IZR_lt; lia).
  assert (Hne : (IZR n <> 0)%R) by lra.
  split; intros H.
  - apply lt_IZR. rewrite mult_IZR.
    apply (Rmult_lt_compat_r (IZR n)) in H; [|exact Hpos].
    replace (IZR s / IZR n * IZR n)%R with (IZR s) in H by (field; exact Hne).
    exact H.
  - apply IZR_lt in H. rewrite mult_IZR in H.
    apply (Rmult_lt_reg_r (IZR n)); [exact Hpos|].
    replace (IZR s / IZR n * IZR n)%R with (IZR s) by (field; exact Hne).
    exact H.
Qed.

(** The real root-mean-square against an integer threshold. *)
Lemma rms_below pcm (k : Z) :
  pcm <> [] -> 0 < k ->
  (rms pcm < IZR k)%R
  <-> sum_squares pcm < k * k * Z.of_nat (length pcm).
Proof.
  intros H Hk. unfold rms. rewrite INR_IZR_INZ.
  assert (Hn : 0 < Z.of_nat (length pcm))
    by (destruct pcm; [contradiction | cbn [length]; lia]).
  rewrite <- (mean_below _ _ (k * k) Hn), mult_IZR.
  assert (Hk0 : (0 <= IZR k)%R) by (apply IZR_le; lia).
  assert (Hmean : (0 <= IZR (sum_squares pcm) / IZR (Z.of_nat (length pcm)))%R).
  { apply Rmult_le_pos.
    - apply IZR_le, sum_squares_nonneg.
    - left. apply Rinv_0_lt_compat, IZR_lt, Hn. }
  rewrite <- (sqrt_square (IZR k) Hk0) at 1.
  split; intros Hlt.
  - now apply sqrt_lt_0_alt.
  - apply sqrt_lt_1_alt. split; assumption.
Qed.

(** The exact representation of the volume agrees with the real number. *)
Lemma calculate_volume_rms pcm :
  pcm <> [] -> volume_R (calculate_volume pcm) = rms pcm.
Proof.
  intros H. unfold volume_R, calculate_volume, rms, Q2R.
  cbn [mean_square Qnum Qden].
  now rewrite (length_pos_of_nat pcm H), INR_IZR_INZ.
Qed.

(** C9.  For a frame (a non-empty list of samples), [is_silence] answers
    true exactly when the root-mean-square of the samples is strictly below
    the threshold, which is 300.  The answer is a function of the samples
    alone: equal frames get equal answers, and no field of the session
    enters or leaves the computation. *)
Theorem is_silence_iff_rms_below_threshold (pcm : list Z) :
  pcm <> [] ->
  volume_R (calculate_volume pcm) = rms pcm
  /\ (is_silence pcm = true <-> (rms pcm < IZR silence_threshold)%R)
  /\ silence_threshold = 300
  /\ (forall pcm', pcm' = pcm -> is_silence pcm' = is_silence pcm).
Proof.
  intros H. split; [now apply calculate_volume_rms|].
  split; [|split; [reflexivity | now intros pcm' ->]].
  rewrite (is_silence_sum_squares pcm H).
  symmetry. apply rms_below; [exact H | reflexivity].
Qed.

Lemma is_silence_iff_rms_below_threshold_witness :
  is_silence (repeat 0 512) = true
  <-> (rms (repeat 0%Z 512) < IZR silence_threshold)%R.
Proof.
  refine (proj1 (proj2 (is_silence_iff_rms_below_threshold (repeat 0 512) _))).
  discriminate.
Defined.

(** ** The transition table *)

(** X1.  Every call of [next_frame] either stays in its state or moves along
    one of the transitions of the table: from [waiting_for_wakeup] to
    [start_reply]; from [waiting_for_silence] to [start_reply] or
    [waiting_for_wakeup]; from [start_reply] to [waiting_for_silence] or
    [replying]; from [replying] to [waiting_for_silence]. *)
Theorem next_frame_successor (t : Tick) (self : AudioRecording) :
  allowed_successor (state self) (state (next_frame t self)) = true.
Proof.
  rewrite next_frame_dispatch. cbn zeta.
  set (self1 := append_frame (recorder_read t) self).
  assert (Hst1 : state self1 = state self)
    by (unfold self1; now autorewrite with frame).
  destruct (state self) eqn:Hst.
  - unfold waiting_for_wakeup. cbn zeta.
    break_if; cbn [state set_state call]; rewrite ?Hst1; reflexivity.
  - pose proof (waiting_for_silence_state (recorder_read t) self1) as H.
    cbn zeta in H. rewrite Hst1 in H.
    destruct H as [H|[H|H]]; rewrite H; reflexivity.
  - unfold start_reply_step. cbn zeta. break_if; reflexivity.
  - destruct (interruption_detection self1) as [d|] eqn:Hd.
    + rewrite (replying_loop_parts t self1 d Hd). cbn zeta.
      destruct (is_done t); [reflexivity|].
      destruct (check_for_interruption t); [reflexivity|].
      destruct (handle_event_frame (chat_gpt_get t) self1) as (E & _).
      now rewrite E, Hst1.
    + unfold replying_loop. now rewrite Hd, Hst1.
Qed.

(** ** Standby after a long silence *)

(** A silent frame while listening with no speech counted: the machine
    goes to [waiting_for_wakeup] exactly when the silence counter reaches
    320, and the speech counter stays at zero. *)
Lemma quiet_frame_no_speech t self :
  state self = State.waiting_for_silence ->
  speaking_frame_count self = 0 ->
  quiet t ->
  let self' := next_frame t self in
  speaking_frame_count self' = 0
  /\ (if 320 <=? silence_frame_count self + 1
      then state self' = State.waiting_for_wakeup
           /\ silence_frame_count self' = 0
      else state self' = State.waiting_for_silence
           /\ silence_frame_count self' = silence_frame_count self + 1).
Proof.
  intros Hst Hsp Hq. cbn zeta. rewrite next_frame_dispatch, Hst. cbn zeta.
  set (self1 := append_frame (recorder_read t) self).
  pose proof (waiting_for_silence_counts (recorder_read t) self1) as W.
  cbn zeta in W.
  destruct (count_frame_quiet (recorder_read t) self1 Hq) as (C1 & C2 & C3).
  unfold self1 in C1, C2, C3. autorewrite with frame in C1, C2, C3.
  fold self1 in C1, C2, C3.
  rewrite Hsp in C3. cbn [Z.ltb Z.compare andb] in C3.
  assert (C3' : speaking_frame_count (count_frame (recorder_read t) self1) = 0)
    by (rewrite C3; now destruct (32 <=? _)).
  rewrite C1, C2, C3', Hst in W.
  change (10 <=? 0) with false in W. rewrite andb_false_r in W.
  destruct (320 <=? silence_frame_count self + 1); tauto.
Qed.

(** X2.  From [waiting_for_silence] with both counters at zero, 320 silence
    frames in a row ([silence_time_to_standby], ten seconds) with no speech
    frame keep the machine in [waiting_for_silence] for 319 frames and send
    it to [waiting_for_wakeup] on the 320th, both counters back at zero. *)
Theorem long_silence_goes_to_standby
  (self : AudioRecording) (silence : list Tick) :
  state self = State.waiting_for_silence ->
  silence_frame_count self = 0 ->
  speaking_frame_count self = 0 ->
  Forall quiet silence ->
  Z.of_nat (length silence) = silence_time_to_standby ->
  states_of_run silence self
    = repeat State.waiting_for_silence 319 ++ [State.waiting_for_wakeup]
  /\ silence_frame_count (run silence self) = 0
  /\ speaking_frame_count (run silence self) = 0.
Proof.
  intros Hst Hsi Hsp Hq Hlen.
  assert (Hrun : forall ts s,
    state s = State.waiting_for_silence ->
    speaking_frame_count s = 0 ->
    Forall quiet ts ->
    silence_frame_count s + Z.of_nat (length ts) < 320 ->
    states_of_run ts s = repeat State.waiting_for_silence (length ts)
    /\ state (run ts s) = State.waiting_for_silence
    /\ speaking_frame_count (run ts s) = 0
    /\ silence_frame_count (run ts s)
       = silence_frame_count s + Z.of_nat (length ts)).
  { induction ts as [|t ts IH]; intros s Hs Hp Hall Hroom.
    - cbn. repeat split; auto; lia.
    - inversion Hall as [|? ? Ht Hts]; subst. cbn [length] in Hroom.
      destruct (quiet_frame_no_speech t s Hs Hp Ht) as (F1 & F2).
      replace (320 <=? silence_frame_count s + 1) with false in F2
        by (symmetry; apply Z.leb_gt; lia).
      destruct F2 as (F2 & F3).
      destruct (IH (next_frame t s) F2 F1 Hts) as (I1 & I2 & I3 & I4);
        [lia|].
      change (run (t :: ts) s) with (run ts (next_frame t s)).
      cbn [states_of_run length repeat]. rewrite I1, F2, I4, F3.
      repeat split; auto; lia. }
  unfold silence_time_to_standby in Hlen.
  assert (Hsplit : silence = firstn 319 silence ++ skipn 319 silence)
    by (symmetry; apply firstn_skipn).
  assert (Hpre : length (firstn 319 silence) = 319%nat)
    by (rewrite length_firstn; lia).
  pose proof (length_skipn 319 silence) as Hpost.
  destruct (skipn 319 silence) as [|t [|? ?]] eqn:E;
    cbn [length] in Hpost; try lia.
  assert (Ht : quiet t).
  { rewrite Forall_forall in Hq. apply Hq. rewrite Hsplit.
    apply in_or_app. right. now left. }
  set (pre := firstn 319 silence) in *.
  destruct (Hrun pre self Hst Hsp) as (R1 & R2 & R3 & R4);
    [now apply Forall_firstn | lia |].
  rewrite Hpre in R1, R4. rewrite Hsi in R4.
  destruct (quiet_frame_no_speech t (run pre self) R2 R3 Ht) as (F1 & F2).
  rewrite R4 in F2. change (320 <=? 0 + Z.of_nat 319 + 1) with true in F2.
  destruct F2 as (F2 & F3).
  rewrite Hsplit, states_of_run_app, run_app, R1.
  change (run [t] ?s) with (next_frame t s).
  cbn [states_of_run]. rewrite F1, F2, F3. auto.
Qed.

Lemma long_silence_goes_to_standby_witness :
  states_of_run (repeat quiet_tick 320) (init system_message)
  = repeat State.waiting_for_silence 319 ++ [State.waiting_for_wakeup].
Proof.
  refine (proj1 (long_silence_goes_to_standby (init system_message)
                   (repeat quiet_tick 320) _ _ _ _ _)).
  - reflexivity.
  - reflexivity.
  - reflexivity.
  - apply Forall_forall. intros t Ht. apply repeat_spec in Ht. subst.
    vm_compute. reflexivity.
  - rewrite repeat_length. reflexivity.
Defined.

(** * Further properties of the session *)

(** ** The conversation is append-only *)

Lemma conversation_after_frame t self :
  conversation (next_frame t self)
  = conversation self ++ messages_of_frame t self.
Proof.
  rewrite next_frame_dispatch. cbn zeta. unfold messages_of_frame.
  set (self1 := append_frame (recorder_read t) self).
  assert (Hc : conversation self1 = conversation self)
    by (unfold self1; now autorewrite with frame).
  assert (Hd : interruption_detection self1 = interruption_detection self)
    by (unfold self1; now autorewrite with frame).
  destruct (state self) eqn:Hst.
  - unfold waiting_for_wakeup. cbn zeta.
    break_if; cbn; now rewrite Hc, app_nil_r.
  - rewrite waiting_for_silence_parts.
    unfold standby_if_due, reply_if_due, flush_if_due, count_frame,
      transcribe_buffer. cbn zeta.
    destruct (is_silence (recorder_read t)); repeat break_if; cbn;
      now rewrite Hc, app_nil_r.
  - unfold start_reply_step. cbn zeta.
    destruct (forallb py_isspace (transcribe_and_stop t)) eqn:Hb.
    + apply strip_nil_iff in Hb. rewrite Hb. cbn. now rewrite Hc, app_nil_r.
    + destruct (strip (transcribe_and_stop t)) eqn:Hs.
      { apply strip_nil_iff in Hs. congruence. }
      cbn. now rewrite Hc.
  - rewrite <- Hd. destruct (interruption_detection self1) as [d|] eqn:Hd1.
    + rewrite (replying_loop_parts t self1 d Hd1). cbn zeta.
      destruct (handle_event_frame (chat_gpt_get t) self1) as (_ & _ & _ & E).
      destruct (is_done t); [|destruct (check_for_interruption t)];
        cbn; now rewrite E, Hc.
    + unfold replying_loop. now rewrite Hd1, Hc, app_nil_r.
Qed.

Lemma messages_of_run_length ts : forall self,
  (length (messages_of_run ts self) <= length ts)%nat.
Proof.
  induction ts as [|t ts IH]; intros self; [reflexivity|].
  cbn [messages_of_run length]. rewrite length_app.
  specialize (IH (next_frame t self)).
  assert (length (messages_of_frame t self) <= 1)%nat; [|lia].
  unfold messages_of_frame.
  destruct (state self); cbn [length]; try lia.
  - destruct (forallb _ _); cbn [length]; lia.
  - destruct (interruption_detection self); cbn [length]; [|lia].
    destruct (chat_gpt_get t) as [[ | | | | ]|]; cbn [polled_messages length];
      lia.
Qed.

(** X3.  Whatever the frames and the collaborators' answers, a run of
    [next_frame] only appends to the conversation: what was there stays, in
    place, and what is added is, frame by frame, the user's non-blank
    transcript in [start_reply] and the assistant message polled in
    [replying]: at most one message per frame, none while waiting for the
    wake word or listening. *)
Theorem conversation_append_only (ts : list Tick) (self : AudioRecording) :
  conversation (run ts self) = conversation self ++ messages_of_run ts self
  /\ (length (conversation self) <= length (conversation (run ts self))
      <= length (conversation self) + length ts)%nat.
Proof.
  assert (H : conversation (run ts self)
              = conversation self ++ messages_of_run ts self).
  { revert self. induction ts as [|t ts IH]; intros self.
    - cbn. now rewrite app_nil_r.
    - change (run (t :: ts) self) with (run ts (next_frame t self)).
      rewrite IH, conversation_after_frame. cbn [messages_of_run].
      now rewrite app_assoc. }
  split; [exact H|]. rewrite H, length_app.
  pose proof (messages_of_run_length ts self). lia.
Qed.

(** ** The buffer only loses its oldest bytes *)

Section Suffix.
Context {A : Type}.
Implicit Types a b c : list A.

Lemma is_suffix_refl a : is_suffix a a.
Proof. now exists []. Qed.

Lemma is_suffix_trans a b c : is_suffix a b -> is_suffix b c -> is_suffix a c.
Proof.
  intros [o1 H1] [o2 H2]. exists (o2 ++ o1). now rewrite H2, H1, app_assoc.
Qed.

Lemma is_suffix_slice i a : is_suffix (slice_from i a) a.
Proof. apply slice_from_suffix. Qed.

Lemma is_suffix_app a b c : is_suffix a b -> is_suffix (a ++ c) (b ++ c).
Proof. intros [o H]. exists o. now rewrite H, app_assoc. Qed.

Lemma is_suffix_length a b : is_suffix a b -> (length a <= length b)%nat.
Proof. intros [o H]. rewrite H, length_app. lia. Qed.

End Suffix.

Lemma buffer_after_frame t self :
  is_suffix (recording_audio_buffer (next_frame t self))
    (recording_audio_buffer self ++ struct_pack (recorder_read t)).
Proof.
  unfold next_frame. cbn zeta.
  set (self1 := append_frame (recorder_read t) self).
  assert (H1 : is_suffix (recording_audio_buffer self1)
                 (recording_audio_buffer self ++ struct_pack (recorder_read t))).
  { unfold self1, append_frame, drop_early_recording_audio_frames.
    break_if; cbn; [apply is_suffix_slice | apply is_suffix_refl]. }
  apply (is_suffix_trans _ (recording_audio_buffer self1)); [|exact H1].
  destruct (state self1).
  - unfold waiting_for_wakeup. cbn zeta. break_if; apply is_suffix_refl.
  - rewrite waiting_for_silence_parts.
    set (s1 := count_frame (recorder_read t) self1).
    set (s2 := flush_if_due s1). set (s3 := reply_if_due s2).
    assert (C : is_suffix (recording_audio_buffer s1)
                  (recording_audio_buffer self1)).
    { unfold s1, count_frame. cbn zeta.
      destruct (is_silence (recorder_read t)); repeat break_if; cbn;
        first [apply is_suffix_refl | apply is_suffix_slice]. }
    assert (F : is_suffix (recording_audio_buffer s2)
                  (recording_audio_buffer s1)).
    { unfold s2, flush_if_due, transcribe_buffer. break_if; cbn;
        first [apply is_suffix_refl | apply is_suffix_slice]. }
    assert (R : is_suffix (recording_audio_buffer s3)
                  (recording_audio_buffer s2)).
    { unfold s3, reply_if_due, transcribe_buffer. break_if; cbn;
        first [apply is_suffix_refl | apply is_suffix_slice]. }
    rewrite standby_if_due_buffer.
    eauto using is_suffix_trans.
  - unfold start_reply_step. cbn zeta. break_if; cbn;
      first [apply is_suffix_refl | apply is_suffix_slice].
  - destruct (interruption_detection self1) as [d|] eqn:Hd.
    + rewrite (replying_loop_parts t self1 d Hd). cbn zeta.
      destruct (handle_event_frame (chat_gpt_get t) self1) as (_ & E & _).
      destruct (is_done t); [|destruct (check_for_interruption t)];
        cbn; rewrite E;
        first [apply is_suffix_refl | apply is_suffix_slice].
    + unfold replying_loop. rewrite Hd. apply is_suffix_refl.
Qed.

(** X4.  Whatever the state, the frames and the collaborators' answers, the
    audio buffer after a run of [next_frame] is a suffix of the buffer
    before it followed by the packed frames of the run, in the order they
    were read: the cap and the trims only ever drop the oldest bytes; no
    byte is altered, reordered or inserted. *)
Theorem buffer_only_drops_oldest (ts : list Tick) (self : AudioRecording) :
  is_suffix (recording_audio_buffer (run ts self))
    (recording_audio_buffer self ++ frames_bytes ts)
  /\ Z.of_nat (length (recording_audio_buffer (run ts self)))
     <= Z.of_nat (length (recording_audio_buffer self))
        + Z.of_nat (length (frames_bytes ts)).
Proof.
  assert (H : is_suffix (recording_audio_buffer (run ts self))
                (recording_audio_buffer self ++ frames_bytes ts)).
  { revert self. induction ts as [|t ts IH]; intros self.
    - cbn. rewrite app_nil_r. apply is_suffix_refl.
    - change (run (t :: ts) self) with (run ts (next_frame t self)).
      change (frames_bytes (t :: ts))
        with (struct_pack (recorder_read t) ++ frames_bytes ts).
      rewrite app_assoc.
      eapply is_suffix_trans; [apply IH|].
      apply is_suffix_app, buffer_after_frame. }
  split; [exact H|].
  apply is_suffix_length in H. rewrite length_app in H. lia.
Qed.

(** ** The counters stay in range *)

Lemma counters_after_frame t self :
  0 <= silence_frame_count self < 320 /\ 0 <= speaking_frame_count self ->
  0 <= silence_frame_count (next_frame t self) < 320
  /\ 0 <= speaking_frame_count (next_frame t self).
Proof.
  intros H. rewrite next_frame_dispatch. cbn zeta.
  pose proof (append_frame_frame (recorder_read t) self) as F.
  cbn zeta in F. destruct F as (_ & _ & Fsi & Fsp & Fdet & _).
  set (self1 := append_frame (recorder_read t) self) in *.
  destruct (state self).
  - unfold waiting_for_wakeup. cbn zeta. break_if; cbn; lia.
  - pose proof (waiting_for_silence_counts (recorder_read t) self1) as W.
    cbn zeta in W.
    destruct (is_silence (recorder_read t)) eqn:E.
    + destruct (count_frame_quiet (recorder_read t) self1 E) as (_ & C2 & C3).
      rewrite C2, C3, Fsi, Fsp in W.
      destruct (320 <=? silence_frame_count self + 1) eqn:E320.
      * destruct W as (_ & W2 & W3). lia.
      * destruct W as (_ & W2 & W3). apply Z.leb_gt in E320.
        rewrite W2, W3. break_if; lia.
    + destruct (count_frame_loud (recorder_read t) self1 E) as (_ & C2 & C3).
      rewrite C2, C3, Fsp in W. cbn [Z.leb Z.compare] in W.
      destruct W as (_ & W2 & W3). lia.
  - unfold start_reply_step. cbn zeta. break_if; cbn; lia.
  - destruct (interruption_detection self1) as [d|] eqn:Hd.
    + rewrite (replying_loop_parts t self1 d Hd). cbn zeta.
      destruct (is_done t); [cbn; lia|].
      destruct (check_for_interruption t);
        destruct (chat_gpt_get t) as [[ | | | | ]|]; cbn; lia.
    + unfold replying_loop. rewrite Hd. lia.
Qed.

(** X5.  In every session reached from the initial one, whatever the frames and
    the collaborators' answers, [silence_frame_count] lies between 0 and
    319 (it is put back to zero on the frame that would make it
    [silence_time_to_standby]) and [speaking_frame_count] is not
    negative. *)
Theorem counters_in_range (m : Message) (ts : list Tick) :
  0 <= silence_frame_count (run ts (init m)) < silence_time_to_standby
  /\ 0 <= speaking_frame_count (run ts (init m)).
Proof.
  change silence_time_to_standby with 320.
  assert (H : forall self,
    0 <= silence_frame_count self < 320 /\ 0 <= speaking_frame_count self ->
    0 <= silence_frame_count (run ts self) < 320
    /\ 0 <= speaking_frame_count (run ts self)).
  { induction ts as [|t ts IH]; intros self Hs; [exact Hs|].
    change (run (t :: ts) self) with (run ts (next_frame t self)).
    now apply IH, counters_after_frame. }
  apply H. cbn. lia.
Qed.

(** ** Shutdown *)

(** X6.  [stop()] on a session reached from the initial one asks, in this
    order, the recorder to stop, the reply pipeline to stop, the
    interruption detector to stop if and only if the state is [replying],
    and the transcriber to stop; it leaves the state, the conversation, the
    counters and the buffer as they are. *)
Theorem stop_calls (m : Message) (ts : list Tick) :
  let self := run ts (init m) in
  calls (stop self)
  = calls self
    ++ [recorder_stop; chat_gpt_stop]
    ++ (if State.eqb (state self) State.replying then [detector_stop] else [])
    ++ [transcriber_stop]
  /\ state (stop self) = state self
  /\ conversation (stop self) = conversation self
  /\ recording_audio_buffer (stop self) = recording_audio_buffer self
  /\ silence_frame_count (stop self) = silence_frame_count self
  /\ speaking_frame_count (stop self) = speaking_frame_count self.
Proof.
  cbn zeta.
  pose proof (run_detector_iff_replying ts (init m)
                (init_detector_iff_replying m)) as [H1 H2].
  set (self := run ts (init m)) in *.
  split; [|unfold stop; cbn zeta; cbn [interruption_detection call];
           destruct (interruption_detection self); repeat split].
  unfold stop. cbn zeta. cbn [interruption_detection call].
  destruct (interruption_detection self) as [d|] eqn:Hd.
  - assert (Hrep : state self = State.replying) by (apply H1; discriminate).
    cbn [calls call]. rewrite Hrep. cbn [State.eqb app].
    now rewrite <- !app_assoc.
  - cbn [calls call]. rewrite <- !app_assoc.
    destruct (state self) eqn:Hst; cbn [State.eqb app]; try reflexivity.
    exfalso. now apply H2.
Qed.

(** ** Replies are dispatched on entering [replying], and only then *)

Lemma replies_app cs1 cs2 :
  replies (cs1 ++ cs2) = (replies cs1 + replies cs2)%nat.
Proof. unfold replies. now rewrite filter_app, length_app. Qed.

Lemma replies_after_frame t self :
  replies (calls (next_frame t self))
  = (replies (calls self)
     + (if State.eqb (state self) State.start_reply
           && State.eqb (state (next_frame t self)) State.replying
        then 1 else 0))%nat.
Proof.
  rewrite next_frame_dispatch. cbn zeta.
  set (self1 := append_frame (recorder_read t) self).
  assert (Hc : calls self1 = calls self)
    by (unfold self1; now autorewrite with frame).
  destruct (state self) eqn:Hst; cbn [State.eqb andb]; rewrite Nat.add_0_r || idtac.
  - unfold waiting_for_wakeup. cbn zeta.
    break_if; cbn [calls call set_state]; rewrite ?replies_app, Hc;
      cbn [replies filter is_reply length]; lia.
  - rewrite waiting_for_silence_parts.
    unfold standby_if_due, reply_if_due, flush_if_due, count_frame,
      transcribe_buffer. cbn zeta.
    destruct (is_silence (recorder_read t)); repeat break_if;
      cbn [calls call set_state set_silence_frame_count
           set_speaking_frame_count set_recording_audio_buffer];
      rewrite ?replies_app, Hc; cbn [replies filter is_reply length]; lia.
  - unfold start_reply_step. cbn zeta. break_if;
      cbn [state calls call reset set_state set_silence_frame_count
           set_speaking_frame_count set_recording_audio_buffer
           set_interruption_detection set_conversation State.eqb];
      rewrite ?replies_app, Hc; cbn [replies filter is_reply length]; lia.
  - destruct (interruption_detection self1) as [d|] eqn:Hd.
    + rewrite (replying_loop_parts t self1 d Hd). cbn zeta.
      destruct (is_done t); [|destruct (check_for_interruption t)];
        destruct (chat_gpt_get t) as [[ | | | | ]|];
        cbn [handle_event calls call reset set_state set_silence_frame_count
             set_speaking_frame_count set_recording_audio_buffer
             set_interruption_detection set_conversation];
        rewrite ?replies_app, Hc; cbn [replies filter is_reply length]; lia.
    + unfold replying_loop. rewrite Hd, Hc. lia.
Qed.

(** X7.  Over any run of [next_frame], the number of times the reply pipeline
    is asked for a reply ([chat_gpt.reply]) is the number of frames on
    which the machine goes from [start_reply] to [replying]: a reply is
    requested on each such frame and on no other. *)
Theorem replies_dispatched_on_entering_replying
  (ts : list Tick) (self : AudioRecording) :
  replies (calls (run ts self))
  = (replies (calls self) + replying_entries ts self)%nat.
Proof.
  revert self. induction ts as [|t ts IH]; intros self.
  - cbn. lia.
  - change (run (t :: ts) self) with (run ts (next_frame t self)).
    rewrite IH, replies_after_frame. cbn [replying_entries]. lia.
Qed.

(** ** The flush that ends an utterance *)

Lemma flushed_state self :
  state (flush_if_due self) = state self.
Proof. apply flush_if_due_frame. Qed.

Lemma consumes_app cs1 cs2 :
  consumes (cs1 ++ cs2) = (consumes cs1 + consumes cs2)%nat.
Proof. unfold consumes. now rewrite filter_app, length_app. Qed.

(** The [start_reply] call of [next_frame] stops the recorder and finalizes
    the transcript first of all, and hands no audio to the transcriber. *)
Lemma start_reply_no_consume t self :
  state self = State.start_reply ->
  (exists rest,
     calls (next_frame t self)
     = calls self ++ [recorder_stop; transcriber_transcribe_and_stop] ++ rest)
  /\ consumes (calls (next_frame t self)) = consumes (calls self).
Proof.
  intros Hst. rewrite next_frame_dispatch, Hst. cbn zeta.
  set (self1 := append_frame (recorder_read t) self).
  assert (Hc : calls self1 = calls self)
    by (unfold self1; now autorewrite with frame).
  unfold start_reply_step. cbn zeta. break_if;
    cbn [calls call reset set_state set_silence_frame_count
         set_interruption_detection set_conversation
         set_recording_audio_buffer conversation];
    rewrite Hc, <- !app_assoc; cbn [app];
    (split; [eexists; reflexivity|]);
    rewrite consumes_app; cbn [consumes filter is_consume length]; lia.
Qed.

Lemma utterance_end_flush (t : Tick) (self : AudioRecording) :
  state self = State.waiting_for_silence ->
  state (next_frame t self) = State.start_reply ->
  exists earlier flushed,
    calls (next_frame t self) = earlier ++ [transcriber_consume flushed]
    /\ recording_audio_buffer (next_frame t self)
       = slice_from (- (frame_length * 32 * 3)) flushed
    /\ is_suffix (recording_audio_buffer (next_frame t self)) flushed
    /\ is_suffix flushed
         (recording_audio_buffer self ++ struct_pack (recorder_read t)).
Proof.
  intros Hst. pose proof (buffer_after_frame t self) as Hsuf. revert Hsuf.
  rewrite next_frame_dispatch, Hst. cbn zeta.
  set (self1 := append_frame (recorder_read t) self).
  assert (Hst1 : state self1 = State.waiting_for_silence)
    by (unfold self1; now autorewrite with frame).
  assert (H1 : is_suffix (recording_audio_buffer self1)
                 (recording_audio_buffer self ++ struct_pack (recorder_read t))).
  { unfold self1, append_frame, drop_early_recording_audio_frames.
    break_if; cbn; [apply is_suffix_slice | apply is_suffix_refl]. }
  rewrite waiting_for_silence_parts.
  set (s1 := count_frame (recorder_read t) self1).
  set (s2 := flush_if_due s1).
  assert (Hst2 : state s2 = State.waiting_for_silence).
  { unfold s2. rewrite flushed_state. unfold s1.
    now rewrite count_frame_state. }
  assert (H2 : is_suffix (recording_audio_buffer s2)
                 (recording_audio_buffer self1)).
  { apply (is_suffix_trans _ (recording_audio_buffer s1)).
    - unfold s2, flush_if_due, transcribe_buffer. break_if; cbn;
        first [apply is_suffix_refl | apply is_suffix_slice].
    - unfold s1, count_frame. cbn zeta.
      destruct (is_silence (recorder_read t)); repeat break_if; cbn;
        first [apply is_suffix_refl | apply is_suffix_slice]. }
  intros _ Hto.
  unfold standby_if_due in Hto |- *.
  destruct (silence_frame_count (reply_if_due s2) >=? silence_time_to_standby);
    [discriminate Hto|].
  unfold reply_if_due in Hto |- *.
  destruct (Z_ge_Q (silence_frame_count s2) silence_limit
            && Z_ge_Q (speaking_frame_count s2) speaking_minimum);
    [|rewrite Hst2 in Hto; discriminate Hto].
  exists (calls s2), (recording_audio_buffer s2).
  cbn [calls recording_audio_buffer set_state transcribe_buffer
       set_recording_audio_buffer call].
  change (Z.max (frame_length * 32 * 3) 0) with (frame_length * 32 * 3).
  repeat split.
  - apply is_suffix_slice.
  - eauto using is_suffix_trans.
Qed.

(** X8.  On the frame that takes the machine from [waiting_for_silence] to
    [start_reply], the last thing asked of any collaborator is
    [transcriber.consume] on the audio buffer as it then stands, and the
    session keeps the last [frame_length * 32 * 3] bytes of what it handed
    over: at the end of that frame every buffered byte has been given to
    the transcriber.  The call of [next_frame] that follows asks, right
    after that [consume], for [recorder.stop()] and
    [transcribe_and_stop()] and never for another [consume]: the frame it
    read and appended is not given to the transcriber. *)
Theorem utterance_end_flushes (t t' : Tick) (self : AudioRecording) :
  state self = State.waiting_for_silence ->
  state (next_frame t self) = State.start_reply ->
  let entered := next_frame t self in
  let finalized := next_frame t' entered in
  exists earlier flushed rest,
    calls entered = earlier ++ [transcriber_consume flushed]
    /\ recording_audio_buffer entered
       = slice_from (- (frame_length * 32 * 3)) flushed
    /\ is_suffix (recording_audio_buffer entered) flushed
    /\ is_suffix flushed
         (recording_audio_buffer self ++ struct_pack (recorder_read t))
    /\ calls finalized
       = earlier
         ++ [transcriber_consume flushed; recorder_stop;
             transcriber_transcribe_and_stop] ++ rest
    /\ consumes (calls finalized) = consumes (calls entered).
Proof.
  intros Hst Hto. cbn zeta.
  destruct (utterance_end_flush t self Hst Hto)
    as (earlier & flushed & U1 & U2 & U3 & U4).
  destruct (start_reply_no_consume t' (next_frame t self) Hto)
    as ((rest & S1) & S2).
  exists earlier, flushed, rest.
  repeat (split; [assumption|]).
  split; [|exact S2].
  rewrite S1, U1, <- app_assoc. reflexivity.
Qed.

Lemma utterance_end_flushes_witness :
  let entered := next_frame quiet_tick listening_session in
  let finalized := next_frame answer_tick entered in
  exists earlier flushed rest,
    calls entered = earlier ++ [transcriber_consume flushed]
    /\ recording_audio_buffer entered
       = slice_from (- (frame_length * 32 * 3)) flushed
    /\ is_suffix (recording_audio_buffer entered) flushed
    /\ is_suffix flushed
         (recording_audio_buffer listening_session
            ++ struct_pack (recorder_read quiet_tick))
    /\ calls finalized
       = earlier
         ++ [transcriber_consume flushed; recorder_stop;
             transcriber_transcribe_and_stop] ++ rest
    /\ consumes (calls finalized) = consumes (calls entered).
Proof.
  apply (utterance_end_flushes quiet_tick answer_tick listening_session).
  - vm_compute. reflexivity.
  - vm_compute. reflexivity.
Defined.

(** ** What the cap does to an appended frame *)

Lemma append_full_frame (t : Tick) (self : AudioRecording) :
  framed t ->
  let before := Z.of_nat (length (recording_audio_buffer self)) in
  let after := recording_audio_buffer (append_frame (recorder_read t) self) in
  is_suffix (struct_pack (recorder_read t)) after
  /\ Z.of_nat (length after)
     = (if before + frame_bytes >? cap self
        then before + frame_bytes - frame_length
        else before + frame_bytes).
Proof.
  intros Hf. cbn zeta.
  pose proof (frame_struct_pack_length _ Hf) as Hp.
  assert (Hlen : Z.of_nat (length (recording_audio_buffer self
                                     ++ struct_pack (recorder_read t)))
                 = Z.of_nat (length (recording_audio_buffer self)) + frame_bytes)
    by (rewrite length_app, Nat2Z.inj_add, Hp; reflexivity).
  destruct (Z.gtb_spec (Z.of_nat (length (recording_audio_buffer self))
                        + frame_bytes) (cap self)) as [Hover|Hin].
  - rewrite append_frame_buffer_above_cap by (rewrite Hlen; lia).
    assert (Hcap : frame_length + frame_bytes <= cap self)
      by (unfold cap; destruct (State.eqb _ _); bytes_lia).
    split.
    + unfold slice_from. change (frame_length <? 0) with false. cbn match.
      rewrite Hlen, Z.min_l by (unfold frame_length in *; lia).
      rewrite skipn_app.
      replace (Z.to_nat frame_length
               - length (recording_audio_buffer self))%nat with 0%nat
        by (unfold frame_length in *; lia).
      cbn [skipn].
      now exists (skipn (Z.to_nat frame_length) (recording_audio_buffer self)).
    + rewrite slice_tail_length by (unfold frame_length; lia).
      rewrite Hlen. unfold frame_length in *. lia.
  - rewrite append_frame_buffer_below_cap by (rewrite Hlen; lia).
    split; [now exists (recording_audio_buffer self) | exact Hlen].
Qed.

(** X9.  Appending one full frame: the frame's bytes are never touched by the
    cap (they end the buffer afterwards), and the buffer grows by the
    frame's [frame_bytes] when that keeps it within the cap, and by
    [frame_bytes - frame_length] otherwise, the cap removing
    [frame_length] bytes from the front once. *)
Theorem append_frame_effect (t : Tick) (self : AudioRecording) :
  framed t ->
  let before := Z.of_nat (length (recording_audio_buffer self)) in
  let after := recording_audio_buffer (append_frame (recorder_read t) self) in
  is_suffix (struct_pack (recorder_read t)) after
  /\ Z.of_nat (length after)
     = (if before + frame_bytes >? cap self
        then before + frame_bytes - frame_length
        else before + frame_bytes).
Proof. exact (append_full_frame t self). Qed.

Lemma append_frame_effect_witness :
  is_suffix (struct_pack (recorder_read quiet_tick))
    (recording_audio_buffer
       (append_frame (recorder_read quiet_tick) listening_session)).
Proof.
  refine (proj1 (append_frame_effect quiet_tick listening_session _)).
  reflexivity.
Defined.

(** X10.  While the machine waits for the wake word and none is heard, once the
    buffer is within one frame of [buffer_size_when_not_listening] every
    further full frame makes it [frame_length] bytes longer: the cap does
    not bound it. *)
Theorem waiting_for_wakeup_buffer_grows
  (ts : list Tick) (self : AudioRecording) :
  state self = State.waiting_for_wakeup ->
  buffer_size_when_not_listening
    < Z.of_nat (length (recording_audio_buffer self)) + frame_bytes ->
  Forall (fun t => framed t /\ porcupine_process t < 0) ts ->
  state (run ts self) = State.waiting_for_wakeup
  /\ Z.of_nat (length (recording_audio_buffer (run ts self)))
     = Z.of_nat (length (recording_audio_buffer self))
       + frame_length * Z.of_nat (length ts).
Proof.
  revert self. induction ts as [|t ts IH]; intros self Hst Hnear Hall.
  - cbn [run fold_left length]. split; [exact Hst | lia].
  - inversion Hall as [|? ? [Hf Hno] Hrest]; subst.
    change (run (t :: ts) self) with (run ts (next_frame t self)).
    assert (Hstep : state (next_frame t self) = State.waiting_for_wakeup
                    /\ recording_audio_buffer (next_frame t self)
                       = recording_audio_buffer
                           (append_frame (recorder_read t) self)).
    { rewrite next_frame_dispatch, Hst. cbn zeta.
      unfold waiting_for_wakeup. cbn zeta.
      replace (porcupine_process t >=? 0) with false
        by (symmetry; rewrite Z.geb_leb; apply Z.leb_gt; lia).
      now autorewrite with frame. }
    destruct Hstep as (Hst' & Hbuf).
    destruct (append_full_frame t self Hf) as (_ & Hlen).
    unfold cap in Hlen. rewrite Hst in Hlen. cbn [State.eqb] in Hlen.
    replace (_ >? buffer_size_when_not_listening) with true in Hlen
      by (symmetry; rewrite Z.gtb_ltb; apply Z.ltb_lt; lia).
    destruct (IH (next_frame t self)) as (I1 & I2);
      [exact Hst' | rewrite Hbuf, Hlen; bytes_lia | exact Hrest |].
    split; [exact I1|].
    rewrite I2, Hbuf, Hlen. cbn [length]. bytes_lia.
Qed.

Lemma waiting_for_wakeup_buffer_grows_witness :
  Z.of_nat (length (recording_audio_buffer
                      (run (repeat quiet_tick 3) idle_session)))
  = Z.of_nat (length (recording_audio_buffer idle_session))
    + frame_length * Z.of_nat (length (repeat quiet_tick 3)).
Proof.
  refine (proj2 (waiting_for_wakeup_buffer_grows (repeat quiet_tick 3)
                   idle_session _ _ _)).
  - apply idle_session_standby.
  - rewrite (proj2 idle_session_standby). reflexivity.
  - repeat constructor.
Defined.

(** ** A short burst of speech is forgotten *)

(** A silence frame while listening with fewer than ten speech frames
    counted, standby not yet due. *)
Lemma quiet_frame_below_minimum t self :
  state self = State.waiting_for_silence ->
  speaking_frame_count self < 10 ->
  0 <= silence_frame_count self -> silence_frame_count self + 1 < 320 ->
  quiet t ->
  let self' := next_frame t self in
  state self' = State.waiting_for_silence
  /\ silence_frame_count self' = silence_frame_count self + 1
  /\ speaking_frame_count self'
     = (if 32 <=? silence_frame_count self + 1
        then 0 else speaking_frame_count self).
Proof.
  intros Hst Hsp Hsi0 Hsi Hq. cbn zeta.
  rewrite next_frame_dispatch, Hst. cbn zeta.
  set (self1 := append_frame (recorder_read t) self).
  pose proof (waiting_for_silence_counts (recorder_read t) self1) as W.
  cbn zeta in W.
  destruct (count_frame_quiet (recorder_read t) self1 Hq) as (C1 & C2 & C3).
  unfold self1 in C1, C2, C3. autorewrite with frame in C1, C2, C3.
  fold self1 in C1, C2, C3.
  replace (speaking_frame_count self <? 10) with true in C3
    by (symmetry; apply Z.ltb_lt; lia).
  cbn [andb] in C3.
  rewrite C1, C2, C3, Hst in W.
  replace (320 <=? silence_frame_count self + 1) with false in W
    by (symmetry; apply Z.leb_gt; lia).
  replace (10 <=? (if 32 <=? silence_frame_count self + 1
                   then 0 else speaking_frame_count self)) with false in W
    by (symmetry; apply Z.leb_gt; destruct (32 <=? _); lia).
  rewrite andb_false_r in W. exact W.
Qed.

Lemma quiet_run_below_minimum ts : forall self,
  state self = State.waiting_for_silence ->
  speaking_frame_count self < 10 ->
  0 <= silence_frame_count self ->
  silence_frame_count self + Z.of_nat (length ts) < 320 ->
  (32 <= silence_frame_count self -> speaking_frame_count self = 0) ->
  Forall quiet ts ->
  states_of_run ts self = repeat State.waiting_for_silence (length ts)
  /\ state (run ts self) = State.waiting_for_silence
  /\ silence_frame_count (run ts self)
     = silence_frame_count self + Z.of_nat (length ts)
  /\ speaking_frame_count (run ts self)
     = (if 32 <=? silence_frame_count self + Z.of_nat (length ts)
        then 0 else speaking_frame_count self).
Proof.
  induction ts as [|t ts IH]; intros self Hst Hsp Hsi0 Hsi Hinv Hall.
  - cbn [run fold_left states_of_run length repeat].
    rewrite Z.add_0_r. repeat split; auto.
    destruct (Z.leb_spec 32 (silence_frame_count self)); auto.
  - inversion Hall as [|? ? Ht Hts]; subst. cbn [length] in Hsi.
    destruct (quiet_frame_below_minimum t self Hst Hsp Hsi0) as (S1 & S2 & S3);
      [lia | exact Ht |].
    assert (Hsp' : speaking_frame_count (next_frame t self) < 10)
      by (rewrite S3; destruct (32 <=? _); lia).
    destruct (IH (next_frame t self)) as (I1 & I2 & I3 & I4);
      [exact S1 | exact Hsp' | lia | lia
      | rewrite S2, S3; intros H32;
        replace (32 <=? silence_frame_count self + 1) with true
          by (symmetry; apply Z.leb_le; lia); reflexivity
      | exact Hts |].
    change (run (t :: ts) self) with (run ts (next_frame t self)).
    cbn [states_of_run length repeat]. rewrite I1, S1, I3, I4, S2, S3.
    repeat split; auto; [lia|].
    replace (silence_frame_count self + 1 + Z.of_nat (length ts))
      with (silence_frame_count self + Z.of_nat (S (length ts))) by lia.
    destruct (Z.leb_spec 32 (silence_frame_count self
                             + Z.of_nat (S (length ts)))); [reflexivity|].
    replace (32 <=? silence_frame_count self + 1) with false
      by (symmetry; apply Z.leb_gt; lia).
    reflexivity.
Qed.

(** X11.  While listening with fewer than ten speech frames counted and the
    silence counter at zero, a run of at least 32 silence frames (twice
    [silence_limit]) and fewer than 320 keeps the machine in
    [waiting_for_silence] on every frame, never starting a reply, and
    leaves [speaking_frame_count] at zero: the short burst counts for
    nothing towards the next utterance. *)
Theorem short_burst_forgotten (self : AudioRecording) (silence : list Tick) :
  state self = State.waiting_for_silence ->
  silence_frame_count self = 0 ->
  speaking_frame_count self < 10 ->
  Forall quiet silence ->
  32 <= Z.of_nat (length silence) < silence_time_to_standby ->
  states_of_run silence self
    = repeat State.waiting_for_silence (length silence)
  /\ speaking_frame_count (run silence self) = 0
  /\ silence_frame_count (run silence self) = Z.of_nat (length silence).
Proof.
  intros Hst Hsi Hsp Hq [Hlo Hhi]. unfold silence_time_to_standby in Hhi.
  destruct (quiet_run_below_minimum silence self Hst Hsp)
    as (R1 & _ & R3 & R4); [lia | lia | lia | exact Hq |].
  rewrite Hsi in R3, R4. cbn [Z.add] in R3, R4.
  replace (32 <=? Z.of_nat (length silence)) with true in R4
    by (symmetry; apply Z.leb_le; lia).
  auto.
Qed.

Lemma short_burst_forgotten_witness :
  speaking_frame_count
    (run (repeat quiet_tick 32) (run (repeat loud_tick 5) (init system_message)))
  = 0.
Proof.
  refine (proj1 (proj2 (short_burst_forgotten
                          (run (repeat loud_tick 5) (init system_message))
                          (repeat quiet_tick 32) _ _ _ _ _))).
  - vm_compute. reflexivity.
  - vm_compute. reflexivity.
  - vm_compute. reflexivity.
  - apply Forall_forall. intros t Ht. apply repeat_spec in Ht. subst.
    exact quiet_tick_quiet.
  - rewrite repeat_length. unfold silence_time_to_standby. lia.
Defined.

(** ** The cadence of the incremental flush *)

Lemma div_32_succ k :
  0 <= k -> (k + 1) / 32 = k / 32 + (if (k + 1) mod 32 =? 0 then 1 else 0).
Proof.
  intros Hk.
  pose proof (Z.div_mod k 32 ltac:(lia)) as Hd.
  pose proof (Z.mod_pos_bound k 32 ltac:(lia)) as Hm.
  destruct (Z.eq_dec (k mod 32) 31) as [E|E].
  - assert (Hq : (k + 1) / 32 = k / 32 + 1)
      by (symmetry; apply (Z.div_unique _ _ _ 0); lia).
    assert (Hr : (k + 1) mod 32 = 0)
      by (symmetry; apply (Z.mod_unique _ _ (k / 32 + 1)); lia).
    rewrite Hq, Hr. reflexivity.
  - assert (Hq : (k + 1) / 32 = k / 32)
      by (symmetry; apply (Z.div_unique _ _ _ (k mod 32 + 1)); lia).
    assert (Hr : (k + 1) mod 32 = k mod 32 + 1)
      by (symmetry; apply (Z.mod_unique _ _ (k / 32)); lia).
    rewrite Hq, Hr.
    replace (k mod 32 + 1 =? 0) with false
      by (symmetry; apply Z.eqb_neq; lia).
    lia.
Qed.

(** A speech frame while listening hands the buffer to the transcriber
    exactly when it makes the speech counter a multiple of 32. *)
Lemma speech_frame_consumes t self :
  state self = State.waiting_for_silence ->
  0 <= speaking_frame_count self ->
  loud t ->
  Z.of_nat (consumes (calls (next_frame t self)))
  = Z.of_nat (consumes (calls self))
    + (if (speaking_frame_count self + 1) mod 32 =? 0 then 1 else 0).
Proof.
  intros Hst Hsp Hl. rewrite next_frame_dispatch, Hst. cbn zeta.
  set (self1 := append_frame (recorder_read t) self).
  rewrite waiting_for_silence_parts.
  destruct (count_frame_loud (recorder_read t) self1 Hl) as (_ & C2 & C3).
  assert (Hcalls : calls (count_frame (recorder_read t) self1) = calls self).
  { unfold count_frame. red in Hl. rewrite Hl. cbn zeta.
    break_if; cbn; unfold self1; now autorewrite with frame. }
  unfold self1 in C3. autorewrite with frame in C3. fold self1 in C3.
  set (s1 := count_frame (recorder_read t) self1) in *.
  assert (Hrest : forall s2, silence_frame_count s2 = 0 ->
                    standby_if_due (reply_if_due s2) = s2).
  { intros s2 H0. unfold reply_if_due.
    rewrite H0, Z_ge_Q_silence_limit. cbn [Z.leb Z.compare andb].
    unfold standby_if_due. now rewrite H0. }
  unfold flush_if_due. rewrite C2, C3. cbn [Z.add].
  change (1 * 32) with 32.
  replace (speaking_frame_count self + 1 >? 0) with true
    by (symmetry; rewrite Z.gtb_ltb; apply Z.ltb_lt; lia).
  cbn [andb].
  destruct ((speaking_frame_count self + 1) mod 32 =? 0).
  - rewrite Hrest by exact C2.
    cbn [transcribe_buffer calls call set_recording_audio_buffer].
    rewrite consumes_app, Hcalls. cbn [consumes filter is_consume length].
    lia.
  - rewrite Hrest by exact C2. rewrite Hcalls. lia.
Qed.

(** X12.  During uninterrupted speech that starts with both counters at zero,
    the buffer is handed to the transcriber once every 32 frames: after [n]
    speech frames [transcriber.consume] has been called [n / 32] more
    times. *)
Theorem speech_flushed_every_32_frames
  (self : AudioRecording) (speech : list Tick) :
  state self = State.waiting_for_silence ->
  silence_frame_count self = 0 ->
  speaking_frame_count self = 0 ->
  Forall loud speech ->
  Z.of_nat (consumes (calls (run speech self)))
  = Z.of_nat (consumes (calls self)) + Z.of_nat (length speech) / 32.
Proof.
  intros Hst Hsi Hsp Hl.
  assert (H : forall ts s,
    state s = State.waiting_for_silence ->
    0 <= speaking_frame_count s ->
    Forall loud ts ->
    Z.of_nat (consumes (calls (run ts s)))
    = Z.of_nat (consumes (calls s))
      + (speaking_frame_count s + Z.of_nat (length ts)) / 32
      - speaking_frame_count s / 32).
  { induction ts as [|t ts IH]; intros s Hs Hk Hall.
    - cbn [run fold_left length]. rewrite Z.add_0_r. lia.
    - inversion Hall as [|? ? Ht Hts]; subst.
      destruct (speech_frame t s Hs Ht) as (S1 & _ & S3).
      change (run (t :: ts) s) with (run ts (next_frame t s)).
      rewrite IH by (try assumption; lia).
      rewrite (speech_frame_consumes t s Hs Hk Ht), S3.
      rewrite (div_32_succ (speaking_frame_count s) Hk).
      replace (speaking_frame_count s + 1 + Z.of_nat (length ts))
        with (speaking_frame_count s + Z.of_nat (length (t :: ts)))
        by (cbn [length]; lia).
      lia. }
  rewrite (H speech self Hst) by (try assumption; lia).
  rewrite Hsp. cbn [Z.add]. change (0 / 32) with 0. lia.
Qed.

Lemma speech_flushed_every_32_frames_witness :
  Z.of_nat (consumes (calls (run (repeat loud_tick 70) (init system_message))))
  = Z.of_nat (consumes (calls (init system_message)))
    + Z.of_nat (length (repeat loud_tick 70)) / 32.
Proof.
  apply (speech_flushed_every_32_frames (init system_message)
           (repeat loud_tick 70)).
  - reflexivity.
  - reflexivity.
  - reflexivity.
  - apply Forall_forall. intros t Ht. apply repeat_spec in Ht. subst.
    exact loud_tick_loud.
Defined.

(** ** The wake word *)

(** X13.  From [waiting_for_wakeup], a frame on which the wake word is detected
    plays the cue, enters [start_reply] and changes nothing else but the
    buffer; the very next frame stops the recorder and finalizes the
    transcript, with no audio handed to the transcriber in between, and
    goes to [waiting_for_silence] if the transcript is blank and to
    [replying] otherwise. *)
Theorem wake_word_then_transcript (t1 t2 : Tick) (self : AudioRecording) :
  state self = State.waiting_for_wakeup ->
  0 <= porcupine_process t1 ->
  let woken := next_frame t1 self in
  let after := next_frame t2 woken in
  state woken = State.start_reply
  /\ calls woken = calls self ++ [play_audio_file_non_blocking "beep2.mp3"]
  /\ conversation woken = conversation self
  /\ silence_frame_count woken = silence_frame_count self
  /\ speaking_frame_count woken = speaking_frame_count self
  /\ (exists rest,
        calls after
        = calls self
          ++ [play_audio_file_non_blocking "beep2.mp3"; recorder_stop;
              transcriber_transcribe_and_stop] ++ rest)
  /\ state after
     = (if forallb py_isspace (transcribe_and_stop t2)
        then State.waiting_for_silence else State.replying).
Proof.
  intros Hst Htrig. cbn zeta.
  assert (Hwoken : next_frame t1 self
                   = set_state State.start_reply
                       (call (play_audio_file_non_blocking "beep2.mp3")
                          (append_frame (recorder_read t1) self))).
  { rewrite next_frame_dispatch, Hst. cbn zeta. unfold waiting_for_wakeup.
    cbn zeta.
    replace (porcupine_process t1 >=? 0) with true
      by (symmetry; rewrite Z.geb_leb; apply Z.leb_le; lia).
    reflexivity. }
  set (woken := next_frame t1 self) in *.
  assert (W1 : state woken = State.start_reply) by (now rewrite Hwoken).
  assert (W2 : calls woken
               = calls self ++ [play_audio_file_non_blocking "beep2.mp3"])
    by (rewrite Hwoken; cbn; now autorewrite with frame).
  assert (W3 : conversation woken = conversation self)
    by (rewrite Hwoken; cbn; now autorewrite with frame).
  assert (W4 : silence_frame_count woken = silence_frame_count self)
    by (rewrite Hwoken; cbn; now autorewrite with frame).
  assert (W5 : speaking_frame_count woken = speaking_frame_count self)
    by (rewrite Hwoken; cbn; now autorewrite with frame).
  repeat (split; [assumption|]).
  rewrite next_frame_dispatch, W1. cbn zeta.
  set (woken1 := append_frame (recorder_read t2) woken).
  assert (Hc : calls woken1 = calls woken)
    by (unfold woken1; now autorewrite with frame).
  unfold start_reply_step. cbn zeta.
  destruct (forallb py_isspace (transcribe_and_stop t2)) eqn:Hb.
  - apply strip_nil_iff in Hb. rewrite Hb. cbn [length Nat.eqb].
    split; [|reflexivity].
    exists [recorder_start; transcriber_restart].
    cbn [calls call reset set_state set_silence_frame_count
         set_interruption_detection].
    rewrite Hc, W2, <- !app_assoc. reflexivity.
  - destruct (strip (transcribe_and_stop t2)) eqn:Hs.
    { apply strip_nil_iff in Hs. congruence. }
    cbn [length Nat.eqb]. split; [|reflexivity].
    eexists.
    cbn [calls call reset set_state set_silence_frame_count
         set_interruption_detection set_conversation
         set_recording_audio_buffer conversation].
    rewrite Hc, W2, <- !app_assoc. cbn [app]. reflexivity.
Qed.

Lemma wake_word_then_transcript_witness :
  state (next_frame answer_tick (next_frame wake_tick idle_session))
  = (if forallb py_isspace (transcribe_and_stop answer_tick)
     then State.waiting_for_silence else State.replying).
Proof.
  refine (proj2 (proj2 (proj2 (proj2 (proj2 (proj2
            (wake_word_then_transcript wake_tick answer_tick idle_session
               _ _))))))).
  - apply idle_session_standby.
  - cbn. lia.
Defined.

(** ** The onset of speech *)

Lemma is_suffix_slice_last {A : Type} (n : Z) (p b : list A) :
  is_suffix p b -> Z.of_nat (length p) <= n ->
  is_suffix p (slice_from (- n) b).
Proof.
  intros [o H] Hn. subst b. unfold slice_from.
  rewrite length_app, Nat2Z.inj_add.
  set (k := Z.to_nat _).
  assert (Hk : (k <= length o)%nat)
    by (unfold k; destruct (- n <? 0); lia).
  rewrite skipn_app.
  replace (k - length o)%nat with 0%nat by lia.
  cbn [skipn]. now exists (skipn k o).
Qed.

(** X14.  The first speech frame after silence (a full frame arriving in
    [waiting_for_silence] with [speaking_frame_count] at zero) cuts the
    buffer to its last [frame_length * 4] bytes; these end with the whole
    of that frame, and the machine goes on listening with the speech
    counter at one. *)
Theorem speech_onset_trim (t : Tick) (self : AudioRecording) :
  state self = State.waiting_for_silence ->
  speaking_frame_count self = 0 ->
  loud t -> framed t ->
  let self' := next_frame t self in
  recording_audio_buffer self'
  = slice_from (- (frame_length * 4))
      (recording_audio_buffer (append_frame (recorder_read t) self))
  /\ Z.of_nat (length (recording_audio_buffer self')) <= frame_length * 4
  /\ is_suffix (struct_pack (recorder_read t)) (recording_audio_buffer self')
  /\ state self' = State.waiting_for_silence
  /\ speaking_frame_count self' = 1.
Proof.
  intros Hst Hsp Hl Hf. cbn zeta.
  destruct (speech_frame t self Hst Hl) as (S1 & _ & S3).
  rewrite S1, S3, Hsp.
  assert (Hbuf : recording_audio_buffer (next_frame t self)
                 = slice_from (- (frame_length * 4))
                     (recording_audio_buffer
                        (append_frame (recorder_read t) self))).
  { rewrite next_frame_dispatch, Hst. cbn zeta.
    set (self1 := append_frame (recorder_read t) self).
    assert (Hsp1 : speaking_frame_count self1 = 0)
      by (unfold self1; now autorewrite with frame).
    rewrite waiting_for_silence_parts.
    unfold count_frame. red in Hl. rewrite Hl. cbn zeta. rewrite Hsp1.
    cbn [Z.eqb].
    cbn [speaking_frame_count silence_frame_count set_recording_audio_buffer
         set_speaking_frame_count set_silence_frame_count].
    unfold flush_if_due.
    cbn [speaking_frame_count silence_frame_count set_recording_audio_buffer
         set_speaking_frame_count set_silence_frame_count].
    rewrite Hsp1. change ((0 + (0 + 1)) mod (1 * 32) =? 0) with false.
    rewrite andb_false_r.
    unfold reply_if_due.
    cbn [speaking_frame_count silence_frame_count set_recording_audio_buffer
         set_speaking_frame_count set_silence_frame_count].
    rewrite Z_ge_Q_silence_limit. cbn [Z.leb Z.compare andb].
    unfold standby_if_due.
    cbn [speaking_frame_count silence_frame_count set_recording_audio_buffer
         set_speaking_frame_count set_silence_frame_count].
    change (0 >=? silence_time_to_standby) with false.
    reflexivity. }
  rewrite Hbuf.
  split; [reflexivity|]. split; [|split; [|auto]].
  - rewrite slice_last_length by reflexivity. lia.
  - apply is_suffix_slice_last.
    + apply (append_full_frame t self Hf).
    + rewrite (frame_struct_pack_length _ Hf). bytes_lia.
Qed.

Lemma speech_onset_trim_witness :
  Z.of_nat (length (recording_audio_buffer
                      (next_frame loud_tick (init system_message))))
  <= frame_length * 4.
Proof.
  refine (proj1 (proj2 (speech_onset_trim loud_tick (init system_message)
                          _ _ _ _))).
  - reflexivity.
  - reflexivity.
  - exact loud_tick_loud.
  - reflexivity.
Defined.

(** ** The recorder is running after every frame *)

Lemma recorder_after_app on cs1 cs2 :
  recorder_after on (cs1 ++ cs2) = recorder_after (recorder_after on cs1) cs2.
Proof. apply fold_left_app. Qed.

Lemma recorder_running_after_frame t self :
  recorder_running (calls self) = true ->
  recorder_running (calls (next_frame t self)) = true.
Proof.
  unfold recorder_running. intros H. rewrite next_frame_dispatch. cbn zeta.
  set (self1 := append_frame (recorder_read t) self).
  assert (Hc : calls self1 = calls self)
    by (unfold self1; now autorewrite with frame).
  destruct (state self).
  - unfold waiting_for_wakeup. cbn zeta.
    break_if; cbn [calls call set_state];
      rewrite ?recorder_after_app, Hc, H; reflexivity.
  - rewrite waiting_for_silence_parts.
    unfold standby_if_due, reply_if_due, flush_if_due, count_frame,
      transcribe_buffer. cbn zeta.
    destruct (is_silence (recorder_read t)); repeat break_if;
      cbn [calls call set_state set_silence_frame_count
           set_speaking_frame_count set_recording_audio_buffer];
      rewrite ?recorder_after_app, Hc, H; reflexivity.
  - unfold start_reply_step. cbn zeta. break_if;
      cbn [calls call reset set_state set_silence_frame_count
           set_speaking_frame_count set_recording_audio_buffer
           set_interruption_detection set_conversation];
      rewrite ?recorder_after_app, Hc, H; reflexivity.
  - destruct (interruption_detection self1) as [d|] eqn:Hd.
    + rewrite (replying_loop_parts t self1 d Hd). cbn zeta.
      destruct (is_done t); [|destruct (check_for_interruption t)];
        destruct (chat_gpt_get t) as [[ | | | | ]|];
        cbn [handle_event calls call reset set_state set_silence_frame_count
             set_speaking_frame_count set_recording_audio_buffer
             set_interruption_detection set_conversation];
        rewrite ?recorder_after_app, Hc, H; reflexivity.
    + unfold replying_loop. now rewrite Hd, Hc.
Qed.

(** X15.  In every session reached from the initial one, the last request made
    of the recorder is [start()]: [next_frame] stops the recorder only in
    [start_reply] and starts it again before it returns, so the next
    [recorder.read()] finds it running. *)
Theorem recorder_running_between_frames (m : Message) (ts : list Tick) :
  recorder_running (calls (run ts (init m))) = true.
Proof.
  assert (H : forall self, recorder_running (calls self) = true ->
                           recorder_running (calls (run ts self)) = true).
  { induction ts as [|t ts IH]; intros self Hs; [exact Hs|].
    change (run (t :: ts) self) with (run ts (next_frame t self)).
    now apply IH, recorder_running_after_frame. }
  apply H. reflexivity.
Qed.

(** ** A reply is never held back *)

Lemma thresholds_not_pending t self :
  let self' := next_frame t self in
  State.eqb (state self') State.waiting_for_silence
  && (16 <=? silence_frame_count self')
  && (10 <=? speaking_frame_count self') = false.
Proof.
  cbn zeta. rewrite next_frame_dispatch. cbn zeta.
  set (self1 := append_frame (recorder_read t) self).
  assert (Hst1 : state self1 = state self)
    by (unfold self1; now autorewrite with frame).
  destruct (state self) eqn:Hst.
  - unfold waiting_for_wakeup. cbn zeta.
    break_if; cbn [state set_state call]; rewrite ?Hst1; reflexivity.
  - pose proof (waiting_for_silence_counts (recorder_read t) self1) as W.
    cbn zeta in W. rewrite count_frame_state, Hst1 in W.
    destruct (320 <=? _).
    + destruct W as (W1 & _). now rewrite W1.
    + destruct W as (W1 & W2 & W3). rewrite W1, W2, W3.
      destruct ((16 <=? _) && (10 <=? _)) eqn:E; [reflexivity|].
      cbn [State.eqb andb]. exact E.
  - unfold start_reply_step. cbn zeta. break_if; reflexivity.
  - destruct (interruption_detection self1) as [d|] eqn:Hd.
    + rewrite (replying_loop_parts t self1 d Hd). cbn zeta.
      destruct (is_done t); [reflexivity|].
      destruct (check_for_interruption t); [reflexivity|].
      destruct (handle_event_frame (chat_gpt_get t) self1) as (E & _).
      now rewrite E, Hst1.
    + unfold replying_loop. now rewrite Hd, Hst1.
Qed.

(** X16.  No session reached from the initial one is still in
    [waiting_for_silence] with [silence_frame_count] at 16 or more
    ([silence_limit]) and [speaking_frame_count] at 10 or more
    ([speaking_minimum]): the frame on which both thresholds are met is the
    frame on which the machine leaves listening. *)
Theorem reply_never_held_back (m : Message) (ts : list Tick) :
  let self := run ts (init m) in
  State.eqb (state self) State.waiting_for_silence
  && Z_ge_Q (silence_frame_count self) silence_limit
  && Z_ge_Q (speaking_frame_count self) speaking_minimum = false.
Proof.
  cbn zeta. rewrite Z_ge_Q_silence_limit, Z_ge_Q_speaking_minimum.
  destruct ts as [|t ts] using rev_ind; [reflexivity|].
  rewrite run_app. change (run [t] ?s) with (next_frame t s).
  apply thresholds_not_pending.
Qed.

(** ** Every return to listening restarts the transcriber *)

(** X17.  Whenever a call of [next_frame] takes the machine into
    [waiting_for_silence] from another state (a blank transcript, the end
    of a reply, an interruption), the last two requests it makes are
    [recorder.start()] and [transcriber.restart()], and it leaves
    [silence_frame_count] at zero and no interruption detector. *)
Theorem return_to_listening_restarts (t : Tick) (self : AudioRecording) :
  state self <> State.waiting_for_silence ->
  state (next_frame t self) = State.waiting_for_silence ->
  (exists earlier,
     calls (next_frame t self)
     = earlier ++ [recorder_start; transcriber_restart])
  /\ silence_frame_count (next_frame t self) = 0
  /\ interruption_detection (next_frame t self) = None.
Proof.
  intros Hfrom. rewrite next_frame_dispatch. cbn zeta.
  set (self1 := append_frame (recorder_read t) self).
  assert (Hst1 : state self1 = state self)
    by (unfold self1; now autorewrite with frame).
  assert (Hreset : forall s,
    (exists earlier,
       calls (reset State.waiting_for_silence s)
       = earlier ++ [recorder_start; transcriber_restart])
    /\ silence_frame_count (reset State.waiting_for_silence s) = 0
    /\ interruption_detection (reset State.waiting_for_silence s) = None).
  { intros s. split; [|split; reflexivity].
    exists (calls s). cbn. now rewrite <- app_assoc. }
  destruct (state self) eqn:Hst.
  - unfold waiting_for_wakeup. cbn zeta.
    break_if; cbn [state set_state call]; rewrite ?Hst1; discriminate.
  - contradiction.
  - unfold start_reply_step. cbn zeta. break_if.
    + intros _. apply Hreset.
    + discriminate.
  - destruct (interruption_detection self1) as [d|] eqn:Hd.
    + rewrite (replying_loop_parts t self1 d Hd). cbn zeta.
      destruct (is_done t); [intros _; apply Hreset|].
      destruct (check_for_interruption t); [intros _; apply Hreset|].
      destruct (handle_event_frame (chat_gpt_get t) self1) as (E & _).
      rewrite E, Hst1. discriminate.
    + unfold replying_loop. rewrite Hd, Hst1. discriminate.
Qed.

Lemma return_to_listening_restarts_witness :
  silence_frame_count (next_frame done_tick replying_session) = 0.
Proof.
  refine (proj1 (proj2 (return_to_listening_restarts done_tick
                          replying_session _ _))).
  - vm_compute. discriminate.
  - vm_compute. reflexivity.
Defined.
